(** * ioredis instrumentation: span lifecycle of the two interceptors

    A shallow embedding of
      packages/instrumentation-ioredis/src/utils.ts
      packages/instrumentation-ioredis/src/instrumentation.ts
    JavaScript values are a small inductive type, objects live in a heap of
    property maps, and the code runs in a state-and-exception monad over a
    world made of the tracer's span store, the heap, the diagnostic log and
    a trace of the calls that cross the boundary of the instrumentation. *)

From stdpp Require Import gmap strings list fin_maps pretty.
From Stdlib Require Import ZArith Lia.

Open Scope Z_scope.
Open Scope string_scope.
Open Scope list_scope.

(** ** JavaScript values *)

(** Numbers are the integers (ports, flag words); fractions, NaN and -0 do
    not occur in the code under study.  Functions are values: [VHost] is a
    function of the application or of ioredis, [VResolve] and [VReject] are
    the two closures that [_traceSendCommand] stores on a command. *)
Inductive Value : Type :=
| VUndefined
| VNull
| VBool (b : bool)
| VNum (n : Z)
| VStr (s : string)
| VObj (ref : nat)
| VSpan (id : nat)
| VTypeError (msg : string)
| VRequestInfo (moduleVersion cmdName cmdArgs : Value)
| VHost (f : nat)
| VResolve (span : nat) (cmd responseHook origResolve : Value)
| VReject (span : nat) (origReject : Value).

Definition typeof (v : Value) : string :=
  match v with
  | VUndefined => "undefined"
  | VNull => "object"
  | VBool _ => "boolean"
  | VNum _ => "number"
  | VStr _ => "string"
  | VObj _ | VSpan _ | VTypeError _ | VRequestInfo _ _ _ => "object"
  | VHost _ | VResolve _ _ _ _ | VReject _ _ => "function"
  end.

(** ToBoolean, as used by [if (x)], [x || y] and [x && y]. *)
Definition truthy (v : Value) : bool :=
  match v with
  | VUndefined | VNull => false
  | VBool b => b
  | VNum n => negb (Z.eqb n 0)
  | VStr s => negb (String.eqb s "")
  | _ => true
  end.

(** [x == null] *)
Definition nullish (v : Value) : bool :=
  match v with
  | VUndefined | VNull => true
  | _ => false
  end.

(** [x === true] *)
Definition is_true (v : Value) : bool :=
  match v with
  | VBool true => true
  | _ => false
  end.

(** [a || b] *)
Definition js_or (a b : Value) : Value := if truthy a then a else b.

(** ToString inside a template literal, for the primitive values; an object
    prints as the default [Object.prototype.toString] does. *)
Definition ToString (v : Value) : string :=
  match v with
  | VUndefined => "undefined"
  | VNull => "null"
  | VBool true => "true"
  | VBool false => "false"
  | VNum n => pretty n
  | VStr s => s
  | _ => "[object Object]"
  end.

(** ** 32-bit flag words *)

Definition ToInt32 (z : Z) : Z := (z + 2 ^ 31) mod 2 ^ 32 - 2 ^ 31.

(** [a & b] *)
Definition bitand (a b : Z) : Z := Z.land (ToInt32 a) (ToInt32 b).

(** [enum SemconvStability] of @opentelemetry/instrumentation. *)
Module SemconvStability.
Definition STABLE : Z := 1.
Definition OLD : Z := 2.
Definition DUPLICATE : Z := 3.
End SemconvStability.

(** [if (semconvStability & flag)] *)
Definition has_flag (semconvStability flag : Z) : bool :=
  negb (Z.eqb (bitand semconvStability flag) 0).

(** ** Attribute keys *)

(** Modelled from the spec: the attribute keys and values that utils.ts and
    instrumentation.ts import from [./semconv] and from
    @opentelemetry/semantic-conventions; the names are those of the
    attribute table of the README. *)
Definition ATTR_DB_SYSTEM : string := "db.system".
Definition ATTR_NET_PEER_NAME : string := "net.peer.name".
Definition ATTR_NET_PEER_PORT : string := "net.peer.port".
Definition ATTR_DB_CONNECTION_STRING : string := "db.connection_string".
Definition ATTR_DB_STATEMENT : string := "db.statement".
Definition DB_SYSTEM_VALUE_REDIS : string := "redis".
Definition DB_SYSTEM_NAME_VALUE_REDIS : string := "redis".
Definition ATTR_DB_SYSTEM_NAME : string := "db.system.name".
Definition ATTR_SERVER_ADDRESS : string := "server.address".
Definition ATTR_SERVER_PORT : string := "server.port".
Definition ATTR_DB_OPERATION_NAME : string := "db.operation.name".
Definition ATTR_DB_QUERY_TEXT : string := "db.query.text".

(** The keys of the two conventions that [getClientAttributes] writes. *)
Definition legacy_keys : gset string :=
  {[ ATTR_DB_SYSTEM; ATTR_NET_PEER_NAME; ATTR_NET_PEER_PORT; ATTR_DB_CONNECTION_STRING ]}.
Definition stable_keys : gset string :=
  {[ ATTR_DB_SYSTEM_NAME; ATTR_SERVER_ADDRESS; ATTR_SERVER_PORT ]}.

(** ** utils.ts: getClientAttributes *)

(** [Object.assign(target, source)]: the source's own properties win. *)
Definition Object_assign (target source : gmap string Value) : gmap string Value :=
  source ∪ target.

Definition getClientAttributes (host port : Value) (semconvStability : Z)
  : gmap string Value :=
  let attributes : gmap string Value := ∅ in
  let attributes :=
    if has_flag semconvStability SemconvStability.OLD then
      Object_assign attributes
        (<[ATTR_DB_CONNECTION_STRING :=
             VStr ("redis://" +:+ ToString host +:+ ":" +:+ ToString port)]>
         (<[ATTR_NET_PEER_PORT := port]>
          (<[ATTR_NET_PEER_NAME := host]>
           (<[ATTR_DB_SYSTEM := VStr DB_SYSTEM_VALUE_REDIS]> ∅))))
    else attributes in
  let attributes :=
    if has_flag semconvStability SemconvStability.STABLE then
      Object_assign attributes
        (<[ATTR_SERVER_PORT := port]>
         (<[ATTR_SERVER_ADDRESS := host]>
          (<[ATTR_DB_SYSTEM_NAME := VStr DB_SYSTEM_NAME_VALUE_REDIS]> ∅)))
    else attributes in
  attributes.

(** ** The world the instrumentation runs in *)

(** [SpanKind] and [SpanStatusCode] of @opentelemetry/api.  A span starts
    with status UNSET; this code only ever sets ERROR. *)
Inductive SpanKind : Type := INTERNAL | SERVER | CLIENT | PRODUCER | CONSUMER.
Inductive SpanStatusCode : Type := UNSET | OK | ERROR.

(** A span is the record of the API calls made on it. *)
Record Span : Type := mkSpan {
  sp_name : Value;
  sp_kind : SpanKind;
  sp_attributes : gmap string Value;
  sp_exceptions : list Value;
  sp_status : SpanStatusCode * Value;
  sp_ended : nat
}.

(** What crosses the boundary of the instrumentation, in order: calls on
    the tracing API and calls of functions of the application or ioredis. *)
Inductive Event : Type :=
| EvStartSpan (id : nat)
| EvRecordException (id : nat) (exception : Value)
| EvSetStatus (id : nat) (code : SpanStatusCode) (message : Value)
| EvEnd (id : nat)
| EvCall (f : nat) (this : Value) (args : list Value).

Record World : Type := mkWorld {
  spans : list Span;
  heap : gmap nat (gmap string Value);
  diag : list (string * Value);
  events : list Event;
  active_span : option nat
}.

Definition with_spans (w : World) (s : list Span) : World :=
  mkWorld s (heap w) (diag w) (events w) (active_span w).
Definition with_heap (w : World) (h : gmap nat (gmap string Value)) : World :=
  mkWorld (spans w) h (diag w) (events w) (active_span w).
Definition with_diag (w : World) (d : list (string * Value)) : World :=
  mkWorld (spans w) (heap w) d (events w) (active_span w).
Definition log_event (w : World) (e : Event) : World :=
  mkWorld (spans w) (heap w) (diag w) (events w ++ [e]) (active_span w).

(** ** State and exceptions *)

Inductive Result (A : Type) : Type :=
| Ok (a : A)
| Throw (e : Value).
Arguments Ok {A} a.
Arguments Throw {A} e.

Definition M (A : Type) : Type := World -> Result A * World.

Definition ret {A} (a : A) : M A := fun w => (Ok a, w).
Definition throw {A} (e : Value) : M A := fun w => (Throw e, w).
Definition bind {A B} (m : M A) (k : A -> M B) : M B :=
  fun w => match m w with
           | (Ok a, w') => k a w'
           | (Throw e, w') => (Throw e, w')
           end.
(** [try { body } catch (error) { handler }] *)
Definition try_catch {A} (body : M A) (handler : Value -> M A) : M A :=
  fun w => match body w with
           | (Ok a, w') => (Ok a, w')
           | (Throw e, w') => handler e w'
           end.

Notation "'let*' x ':=' m 'in' k" := (bind m (fun x => k))
  (at level 10, x name, m at level 100, k at level 200).
Notation "m ';;;' k" := (bind m (fun _ => k))
  (at level 100, k at level 200, right associativity).

(** ** Reading and writing properties *)

Definition TypeError_read (k : string) : Value :=
  VTypeError ("Cannot read properties of null or undefined (reading '" +:+ k +:+ "')").
Definition TypeError_write (k : string) : Value :=
  VTypeError ("Cannot set properties of null or undefined (setting '" +:+ k +:+ "')").
Definition TypeError_call : Value := VTypeError "value is not a function".

(** [o.k] for a plain object of the heap. *)
Definition heap_get (h : gmap nat (gmap string Value)) (r : nat) (k : string) : Value :=
  match h !! r with
  | Some o => match o !! k with Some v => v | None => VUndefined end
  | None => VUndefined
  end.

(** [o.k = v] for a plain object of the heap. *)
Definition heap_set (h : gmap nat (gmap string Value)) (r : nat) (k : string) (v : Value)
  : gmap nat (gmap string Value) :=
  <[r := <[k := v]> (match h !! r with Some o => o | None => ∅ end)]> h.

(** [o.k], for the properties this code reads ([name], [args], [resolve],
    [reject] of a value whose [typeof] is ["object"]; [options], [host],
    [port]; [message] of an error).  Reading from null or undefined throws;
    an object of the heap answers from its property map; the objects made
    by the runtime or by this code carry their own fields and are never
    written; any other value has none of these properties. *)
Definition get_prop (o : Value) (k : string) : M Value :=
  match o with
  | VUndefined | VNull => throw (TypeError_read k)
  | VObj r => fun w => (Ok (heap_get (heap w) r k), w)
  | VTypeError msg =>
      ret (if String.eqb k "message" then VStr msg
           else if String.eqb k "name" then VStr "TypeError"
           else VUndefined)
  | VRequestInfo moduleVersion cmdName cmdArgs =>
      ret (if String.eqb k "moduleVersion" then moduleVersion
           else if String.eqb k "cmdName" then cmdName
           else if String.eqb k "cmdArgs" then cmdArgs
           else VUndefined)
  | _ => ret VUndefined
  end.

(** [o.k = v] *)
Definition set_prop (o : Value) (k : string) (v : Value) : M unit :=
  match o with
  | VUndefined | VNull => throw (TypeError_write k)
  | VObj r => fun w => (Ok tt, with_heap w (heap_set (heap w) r k v))
  | _ => ret tt
  end.

(** ** The tracing API, as this code uses it *)

Definition getSpan_active : M (option nat) := fun w => (Ok (active_span w), w).

(** [tracer.startSpan(name, { kind, attributes })] *)
Definition startSpan (name : Value) (kind : SpanKind) (attributes : gmap string Value)
  : M nat :=
  fun w =>
    let id := length (spans w) in
    (Ok id,
     log_event
       (with_spans w (spans w ++ [mkSpan name kind attributes [] (UNSET, VUndefined) 0]))
       (EvStartSpan id)).

Definition update_span (id : nat) (f : Span -> Span) (w : World) : World :=
  with_spans w (alter f id (spans w)).

(** [span.recordException(e)] *)
Definition recordException (id : nat) (e : Value) : M unit :=
  fun w =>
    (Ok tt,
     log_event
       (update_span id
          (fun s => mkSpan (sp_name s) (sp_kind s) (sp_attributes s)
                      (sp_exceptions s ++ [e]) (sp_status s) (sp_ended s)) w)
       (EvRecordException id e)).

(** [span.setStatus({ code, message })] *)
Definition setStatus (id : nat) (code : SpanStatusCode) (message : Value) : M unit :=
  fun w =>
    (Ok tt,
     log_event
       (update_span id
          (fun s => mkSpan (sp_name s) (sp_kind s) (sp_attributes s)
                      (sp_exceptions s) (code, message) (sp_ended s)) w)
       (EvSetStatus id code message)).

(** [span.end()] *)
Definition span_end (id : nat) : M unit :=
  fun w =>
    (Ok tt,
     log_event
       (update_span id
          (fun s => mkSpan (sp_name s) (sp_kind s) (sp_attributes s)
                      (sp_exceptions s) (sp_status s) (S (sp_ended s))) w)
       (EvEnd id)).

(** [diag.error(message, e)] *)
Definition diag_error (message : string) (e : Value) : M unit :=
  fun w => (Ok tt, with_diag w (diag w ++ [(message, e)])).

(** ** utils.ts: endSpan *)

Definition endSpan (span : nat) (err : Value) : M unit :=
  (if truthy err then
     recordException span err;;;
     let* message := get_prop err "message" in
     setStatus span ERROR message
   else ret tt);;;
  span_end span.

(** [safeExecuteInTheMiddle(execute, onFinish, preventThrowingError)] of
    @opentelemetry/instrumentation: the error caught from [execute] (or
    undefined) and its result (or undefined) go to [onFinish]; the error is
    thrown again only when it is truthy and [preventThrowingError] is not set. *)
Definition safeExecuteInTheMiddle (execute : M Value)
    (onFinish : Value -> Value -> M unit) (preventThrowingError : bool) : M Value :=
  fun w =>
    match execute w with
    | (Ok result, w') => (onFinish VUndefined result;;; ret result) w'
    | (Throw e, w') =>
        (onFinish e VUndefined;;;
         if truthy e && negb preventThrowingError then throw e else ret VUndefined) w'
    end.

(** ** instrumentation.ts *)

Record Instrumentation : Type := mkInstrumentation {
  _config : gmap string Value;
  _semconvStability : Z
}.

(** [config.k] on a configuration object. *)
Definition config_get (config : gmap string Value) (k : string) : Value :=
  match config !! k with Some v => v | None => VUndefined end.

(** [{ ...a, ...b }] *)
Definition spread (a b : gmap string Value) : gmap string Value := b ∪ a.

Definition DEFAULT_CONFIG : gmap string Value :=
  {[ "requireParentSpan" := VBool true ]}.

(** [InstrumentationBase.setConfig] of @opentelemetry/instrumentation stores
    [{ enabled: true, ...config }]. *)
Definition InstrumentationBase_setConfig (config : gmap string Value)
  : gmap string Value :=
  spread {[ "enabled" := VBool true ]} config.

(** What a function of the application or of ioredis does when called: it
    returns a value or throws an Error object of the heap. *)
Inductive HostResult : Type :=
| Returns (v : Value)
| Raises (error : nat).

(** How ioredis settles a command: [command.resolve(result)] or
    [command.reject(err)], with [err: Error]. *)
Inductive Settlement : Type :=
| Resolves (result : Value)
| Rejects (error : nat).

Section Interceptors.

(** The functions of the application and of ioredis: function [f], called
    on [this] with [args], returns or throws and may change the heap.
    Such a function does not see the tracer: what a hook does to the span
    it is handed, and a client that settles a command before its dispatch
    returns, are outside this development. *)
Variable extern : nat -> Value -> list Value -> gmap nat (gmap string Value) ->
                  HostResult * gmap nat (gmap string Value).

(** [defaultDbStatementSerializer] of @opentelemetry/redis-common. *)
Variable defaultDbStatementSerializer : Value.

(** [semconvStabilityFromStr] of @opentelemetry/instrumentation and the
    value of [process.env.OTEL_SEMCONV_STABILITY_OPT_IN]. *)
Variable semconvStabilityFromStr : string -> Value -> Z.
Variable OTEL_SEMCONV_STABILITY_OPT_IN : Value.

Definition call_host (f : nat) (this : Value) (args : list Value) : M Value :=
  fun w =>
    let w1 := log_event w (EvCall f this args) in
    match extern f this args (heap w1) with
    | (Returns v, h) => (Ok v, with_heap w1 h)
    | (Raises error, h) => (Throw (VObj error), with_heap w1 h)
    end.

Definition arg (i : nat) (args : list Value) : Value := nth i args VUndefined.

Definition response_hook_failed (e _result : Value) : M unit :=
  if truthy e then diag_error "ioredis instrumentation: response hook failed" e
  else ret tt.

Definition request_hook_failed (e _result : Value) : M unit :=
  if truthy e then diag_error "ioredis instrumentation: request hook failed" e
  else ret tt.

(** [f.apply(this, args)].  The bodies of [VResolve] and [VReject] are the
    two function expressions of [_traceSendCommand] (lines 187-200 and
    203-206), closed over [span], [cmd], [config.responseHook] and the
    callback they replace. *)
Fixpoint call (f this : Value) (args : list Value) {struct f} : M Value :=
  match f with
  | VHost id => call_host id this args
  | VResolve span cmd responseHook origResolve =>
      let result := arg 0 args in
      safeExecuteInTheMiddle
        (if nullish responseHook then ret VUndefined
         else
           let* name := get_prop cmd "name" in
           let* cmdArgs := get_prop cmd "args" in
           call responseHook VUndefined [VSpan span; name; cmdArgs; result])
        response_hook_failed true;;;
      endSpan span VNull;;;
      call origResolve VUndefined [result];;;
      ret VUndefined
  | VReject span origReject =>
      let err := arg 0 args in
      endSpan span err;;;
      call origReject VUndefined [err];;;
      ret VUndefined
  | _ => throw TypeError_call
  end.

(** The first statement of the success callback (lines 188-196): the
    response hook, run inside [safeExecuteInTheMiddle]. *)
Definition responseHook_phase (span : nat) (cmd responseHook result : Value)
  : M Value :=
  safeExecuteInTheMiddle
    (if nullish responseHook then ret VUndefined
     else
       let* name := get_prop cmd "name" in
       let* cmdArgs := get_prop cmd "args" in
       call responseHook VUndefined [VSpan span; name; cmdArgs; result])
    response_hook_failed true.

(** ioredis settling the command [cmd]. *)
Definition settle (cmd : Value) (s : Settlement) : M Value :=
  match s with
  | Resolves result =>
      let* resolve := get_prop cmd "resolve" in
      call resolve cmd [result]
  | Rejects error =>
      let* reject := get_prop cmd "reject" in
      call reject cmd [VObj error]
  end.

(** The constructor: [super(NAME, VERSION, { ...DEFAULT_CONFIG, ...config })],
    then the convention mode from the environment. *)
Definition constructor (config : gmap string Value) : Instrumentation :=
  mkInstrumentation
    (InstrumentationBase_setConfig (spread DEFAULT_CONFIG config))
    (semconvStabilityFromStr "database" OTEL_SEMCONV_STABILITY_OPT_IN).

Definition setConfig (_this : Instrumentation) (config : gmap string Value)
  : Instrumentation :=
  mkInstrumentation
    (InstrumentationBase_setConfig (spread DEFAULT_CONFIG config))
    (semconvStabilityFromStr "database" OTEL_SEMCONV_STABILITY_OPT_IN).

Definition getConfig (instrumentation : Instrumentation) : gmap string Value :=
  _config instrumentation.

(** Lines 135-157 of [_traceSendCommand]: the attributes of the span. *)
Definition sendCommand_attributes (instrumentation : Instrumentation)
    (dbStatementSerializer this cmd : Value) : M (gmap string Value) :=
  let* operationName := get_prop cmd "name" in
  let* options := get_prop this "options" in
  let* host := get_prop options "host" in
  let* port := get_prop options "port" in
  let attributes :=
    getClientAttributes host port (_semconvStability instrumentation) in
  let attributes :=
    if has_flag (_semconvStability instrumentation) SemconvStability.STABLE
    then <[ATTR_DB_OPERATION_NAME := operationName]> attributes
    else attributes in
  let* name := get_prop cmd "name" in
  let* cmdArgs := get_prop cmd "args" in
  let* dbStatement := call dbStatementSerializer VUndefined [name; cmdArgs] in
  let attributes :=
    if negb (nullish dbStatement) then
      let attributes :=
        if has_flag (_semconvStability instrumentation) SemconvStability.OLD
        then <[ATTR_DB_STATEMENT := dbStatement]> attributes
        else attributes in
      if has_flag (_semconvStability instrumentation) SemconvStability.STABLE
      then <[ATTR_DB_QUERY_TEXT := dbStatement]> attributes
      else attributes
    else attributes in
  ret attributes.

(** Lines 164-180: the request hook. *)
Definition sendCommand_requestHook (config : gmap string Value)
    (moduleVersion cmd : Value) (span : nat) : M unit :=
  let requestHook := config_get config "requestHook" in
  if truthy requestHook then
    safeExecuteInTheMiddle
      (let* name := get_prop cmd "name" in
       let* cmdArgs := get_prop cmd "args" in
       call requestHook VUndefined
         [VSpan span; VRequestInfo moduleVersion name cmdArgs])
      request_hook_failed true;;;
    ret tt
  else ret tt.

(** Lines 182-212: the dispatch, the two callbacks, the catch. *)
Definition sendCommand_dispatch (config : gmap string Value)
    (original this : Value) (arguments : list Value) (cmd : Value) (span : nat)
  : M Value :=
  try_catch
    (let* result := call original this arguments in
     let* origResolve := get_prop cmd "resolve" in
     set_prop cmd "resolve"
       (VResolve span cmd (config_get config "responseHook") origResolve);;;
     let* origReject := get_prop cmd "reject" in
     set_prop cmd "reject" (VReject span origReject);;;
     ret result)
    (fun error => endSpan span error;;; throw error).

(** The function that [_traceSendCommand(original, moduleVersion)] returns,
    called on [this] with [arguments]. *)
Definition _traceSendCommand (instrumentation : Instrumentation)
    (original moduleVersion : Value) (this : Value) (arguments : list Value)
  : M Value :=
  let cmd := arg 0 arguments in
  if (length arguments <? 1)%nat || negb (String.eqb (typeof cmd) "object") then
    call original this arguments
  else
    let config := getConfig instrumentation in
    let dbStatementSerializer :=
      js_or (config_get config "dbStatementSerializer") defaultDbStatementSerializer in
    let* active := getSpan_active in
    let hasNoParentSpan := match active with None => true | Some _ => false end in
    if is_true (config_get config "requireParentSpan") && hasNoParentSpan then
      call original this arguments
    else
      let* attributes :=
        sendCommand_attributes instrumentation dbStatementSerializer this cmd in
      let* name := get_prop cmd "name" in
      let* span := startSpan name CLIENT attributes in
      sendCommand_requestHook config moduleVersion cmd span;;;
      sendCommand_dispatch config original this arguments cmd span.

(** Lines 227-239 of [_traceConnection]: the attributes of the span. *)
Definition connection_attributes (instrumentation : Instrumentation) (this : Value)
  : M (gmap string Value) :=
  let* options := get_prop this "options" in
  let* host := get_prop options "host" in
  let* port := get_prop options "port" in
  let attributes :=
    getClientAttributes host port (_semconvStability instrumentation) in
  let attributes :=
    if has_flag (_semconvStability instrumentation) SemconvStability.OLD
    then <[ATTR_DB_STATEMENT := VStr "connect"]> attributes
    else attributes in
  let attributes :=
    if has_flag (_semconvStability instrumentation) SemconvStability.STABLE
    then <[ATTR_DB_QUERY_TEXT := VStr "connect"]> attributes
    else attributes in
  ret attributes.

(** Lines 246-253: the connect call bracketed by the span. *)
Definition connection_dispatch (original this : Value) (arguments : list Value)
    (span : nat) : M Value :=
  try_catch
    (let* client := call original this arguments in
     endSpan span VNull;;;
     ret client)
    (fun error => endSpan span error;;; throw error).

(** The function that [_traceConnection(original)] returns. *)
Definition _traceConnection (instrumentation : Instrumentation)
    (original : Value) (this : Value) (arguments : list Value) : M Value :=
  let* active := getSpan_active in
  let hasNoParentSpan := match active with None => true | Some _ => false end in
  if is_true (config_get (getConfig instrumentation) "requireParentSpan")
     && hasNoParentSpan then
    call original this arguments
  else
    let* attributes := connection_attributes instrumentation this in
    let* span := startSpan (VStr "connect") CLIENT attributes in
    connection_dispatch original this arguments span.

(** A traced command from its dispatch to its settlement: the wrapper
    runs, and when it returned, ioredis settles the command. *)
Definition command_lifecycle (instrumentation : Instrumentation)
    (original moduleVersion this : Value) (arguments : list Value)
    (s : Settlement) : M Value :=
  fun w =>
    match _traceSendCommand instrumentation original moduleVersion this arguments w with
    | (Ok result, w1) =>
        match settle (arg 0 arguments) s w1 with
        | (_, w2) => (Ok result, w2)
        end
    | (Throw e, w1) => (Throw e, w1)
    end.

End Interceptors.

(** ** Vocabulary of the properties *)

(** [steps R m]: every run of [m] relates the world it starts in to the
    world it ends in, whether it returns or throws. *)
Definition steps {A} (R : World -> World -> Prop) (m : M A) : Prop :=
  forall w, R w (snd (m w)).

(** A span after [span.end()] alone, and after [recordException],
    [setStatus] with ERROR and [end]. *)
Definition closed_span (s : Span) : Span :=
  mkSpan (sp_name s) (sp_kind s) (sp_attributes s) (sp_exceptions s) (sp_status s)
    (S (sp_ended s)).
Definition failed_span (err message : Value) (s : Span) : Span :=
  mkSpan (sp_name s) (sp_kind s) (sp_attributes s) (sp_exceptions s ++ [err])
    (ERROR, message) (S (sp_ended s)).

(** [err.message] for an error value, read in the heap [h]. *)
Definition error_message (h : gmap nat (gmap string Value)) (err : Value) : Value :=
  match err with
  | VObj r => heap_get h r "message"
  | VTypeError msg => VStr msg
  | _ => VUndefined
  end.

(** The world after [endSpan(span, null)], and after [endSpan(span, err)]
    for an error value [err]. *)
Definition span_closed (span : nat) (w : World) : World :=
  log_event (update_span span closed_span w) (EvEnd span).
Definition span_failed (span : nat) (err : Value) (w : World) : World :=
  mkWorld
    (alter (failed_span err (error_message (heap w) err)) span (spans w))
    (heap w) (diag w)
    (events w ++
       [EvRecordException span err;
        EvSetStatus span ERROR (error_message (heap w) err);
        EvEnd span])
    (active_span w).

(** The world after [tracer.startSpan(name, { kind: CLIENT, attributes })]. *)
Definition span_opened (name : Value) (attributes : gmap string Value) (w : World)
  : World :=
  log_event
    (with_spans w (spans w ++ [mkSpan name CLIENT attributes [] (UNSET, VUndefined) 0]))
    (EvStartSpan (length (spans w))).

(** The spans of [w'] that [w] did not have: those opened in between. *)
Definition opened_since (w w' : World) : list Span :=
  drop (length (spans w)) (spans w').

(** The span carries error information: an exception and status ERROR. *)
Definition error_info (s : Span) : bool :=
  match sp_exceptions s, fst (sp_status s) with
  | _ :: _, ERROR => true
  | _, _ => false
  end.

(** The two closures of the interceptor. *)
Definition is_closure (v : Value) : bool :=
  match v with
  | VResolve _ _ _ _ | VReject _ _ => true
  | _ => false
  end.

(** The [resolve] and [reject] fields of the object [c] hold no closure of
    the interceptor: they are the callbacks of the caller. *)
Definition callbacks_plain (h : gmap nat (gmap string Value)) (c : nat) : Prop :=
  is_closure (heap_get h c "resolve") = false /\
  is_closure (heap_get h c "reject") = false.

(** A run keeps the callbacks of [c] plain. *)
Definition keeps_plain (c : nat) (w w' : World) : Prop :=
  callbacks_plain (heap w) c -> callbacks_plain (heap w') c.

(** The boundary events of calling a value that is not such a closure. *)
Definition call_events (f this : Value) (args : list Value) : list Event :=
  match f with
  | VHost id => [EvCall id this args]
  | _ => []
  end.

(** Relations between the world before and after a run: the number of
    spans is the same; every span that existed keeps its name, kind and
    attributes; the tracer's state is untouched. *)
Definition same_span_count (w w' : World) : Prop :=
  length (spans w') = length (spans w).
Definition spans_keep_identity (w w' : World) : Prop :=
  forall id s, spans w !! id = Some s ->
    exists s', spans w' !! id = Some s' /\ sp_name s' = sp_name s /\
               sp_kind s' = sp_kind s /\ sp_attributes s' = sp_attributes s.
Definition tracer_untouched (w w' : World) : Prop :=
  spans w' = spans w /\ diag w' = diag w /\ active_span w' = active_span w.

(** ** A concrete application *)

(** The functions of a small application: 0 is an original of ioredis
    (dispatch or connect) that returns; 1 and 2 are the callbacks of the
    command's promise; 3 is a statement serializer and 8 one that returns
    null; 4, 5, 6 and 7 are a connect, a dispatch, a request hook and a
    response hook that throw the Error object 9.  None writes to the heap. *)
Definition demo_outcome (f : nat) : HostResult :=
  match f with
  | 0%nat => Returns (VStr "promise")
  | 3%nat => Returns (VStr "get foo")
  | 8%nat => Returns VNull
  | 4%nat | 5%nat | 6%nat | 7%nat => Raises 9
  | _ => Returns VUndefined
  end.

Definition demo_extern (f : nat) (this : Value) (args : list Value)
    (h : gmap nat (gmap string Value)) : HostResult * gmap nat (gmap string Value) :=
  (demo_outcome f, h).

(** Object 0 is the command [get foo], 1 the client, 2 the argument array,
    3 the client's options, 9 an Error. *)
Definition demo_heap : gmap nat (gmap string Value) :=
  <[0%nat := <["name" := VStr "get"]> (<["args" := VObj 2]>
              (<["resolve" := VHost 1]> (<["reject" := VHost 2]> ∅)))]>
  (<[1%nat := <["options" := VObj 3]> ∅]>
  (<[2%nat := ∅]>
  (<[3%nat := <["host" := VStr "localhost"]> (<["port" := VNum 6379]> ∅)]>
  (<[9%nat := <["message" := VStr "boom"]> ∅]> ∅)))).

Definition demo_parent : Span :=
  mkSpan (VStr "request") SERVER ∅ [] (UNSET, VUndefined) 0.

(** A world with a span active, and one with none. *)
Definition demo_world : World := mkWorld [demo_parent] demo_heap [] [] (Some 0%nat).
Definition demo_world_root : World := mkWorld [] demo_heap [] [] None.

(** [semconvStabilityFromStr] on a single token. *)
Definition demo_semconvStabilityFromStr (namespace : string) (str : Value) : Z :=
  match str with
  | VStr s =>
      if String.eqb s (namespace +:+ "/dup") then SemconvStability.DUPLICATE
      else if String.eqb s namespace then SemconvStability.STABLE
      else SemconvStability.OLD
  | _ => SemconvStability.OLD
  end.

(** The instrumentation as constructed with the configuration [config]
    under [OTEL_SEMCONV_STABILITY_OPT_IN=database/dup]. *)
Definition demo_instrumentation (config : gmap string Value) : Instrumentation :=
  constructor demo_semconvStabilityFromStr (VStr "database/dup") config.

(** The span of the command [get foo] as the wrapper opens it in
    [demo_world] when the serializer returns null. *)
Definition demo_span_without_statement : Span :=
  mkSpan (VStr "get") CLIENT
    (<[ATTR_DB_OPERATION_NAME := VStr "get"]>
       (getClientAttributes (VStr "localhost") (VNum 6379) SemconvStability.DUPLICATE))
    [] (UNSET, VUndefined) 0.

(** * A command and its settlements *)

Definition is_rejection (s : Settlement) : bool :=
  match s with
  | Rejects _ => true
  | Resolves _ => false
  end.

(** The heap [h'] has on the object [c] the [resolve] and [reject] that
    [h] has. *)
Definition same_callbacks (c : nat) (h h' : gmap nat (gmap string Value)) : Prop :=
  heap_get h' c "resolve" = heap_get h c "resolve" /\
  heap_get h' c "reject" = heap_get h c "reject".

Definition keeps_callbacks (c : nat) (w w' : World) : Prop :=
  same_callbacks c (heap w) (heap w').

Section Settlements.

Variable extern : nat -> Value -> list Value -> gmap nat (gmap string Value) ->
                  HostResult * gmap nat (gmap string Value).
Variable defaultDbStatementSerializer : Value.

(** ioredis calls [cmd.resolve] or [cmd.reject] for each settlement of the
    list, in order: none when it settled the command before the wrapper
    put its closures on it or never settles it, one for a reply or an
    error from the server.  Whatever a callback throws goes to ioredis. *)
Fixpoint settle_all (cmd : Value) (ss : list Settlement) (w : World) : World :=
  match ss with
  | [] => w
  | s :: ss => settle_all cmd ss (snd (settle extern cmd s w))
  end.

(** The dispatch wrapper, and when it returned, the settlements. *)
Definition command_settlements (instrumentation : Instrumentation)
    (original moduleVersion this : Value) (arguments : list Value)
    (ss : list Settlement) : M Value :=
  fun w =>
    match _traceSendCommand extern defaultDbStatementSerializer instrumentation
            original moduleVersion this arguments w with
    | (Ok result, w1) => (Ok result, settle_all (arg 0 arguments) ss w1)
    | (Throw e, w1) => (Throw e, w1)
    end.

End Settlements.

(** * Registration: [init], [_patchSendCommand], [_patchConnection]
      (instrumentation.ts, lines 64-118) *)

(** The functions that [init] hands to [_wrap]:
    [_patchSendCommand(moduleVersion)] is
    [original => this._traceSendCommand(original, moduleVersion)] and
    [_patchConnection()] is [original => this._traceConnection(original)]. *)
Inductive Wrapper : Type :=
| PatchSendCommand (moduleVersion : Value)
| PatchConnection.

Definition _patchSendCommand (moduleVersion : Value) : Wrapper :=
  PatchSendCommand moduleVersion.

Definition _patchConnection : Wrapper := PatchConnection.

(** The two properties of [moduleExports.prototype] that [init] touches. *)
Inductive MethodName : Type := SendCommand | Connect.

Section Registration.

(** [isWrapped], [_wrap] and [_unwrap] come from
    @opentelemetry/instrumentation and are parameters of [init]: [Fn] is what
    a property of the prototype may hold, [_wrap f wrapper] is what
    [this._wrap(nodule, name, wrapper)] leaves in [nodule[name]] when it held
    [f], and [_unwrap f] what [this._unwrap(nodule, name)] leaves there. *)
Variable Fn : Type.
Variable isWrapped : Fn -> bool.
Variable _wrap : Fn -> Wrapper -> Fn.
Variable _unwrap : Fn -> Fn.

Record Prototype : Type := mkPrototype {
  sendCommand : Fn;
  connect : Fn
}.

Definition get_method (prototype : Prototype) (name : MethodName) : Fn :=
  match name with
  | SendCommand => sendCommand prototype
  | Connect => connect prototype
  end.

Definition set_method (prototype : Prototype) (name : MethodName) (f : Fn) : Prototype :=
  match name with
  | SendCommand => mkPrototype f (connect prototype)
  | Connect => mkPrototype (sendCommand prototype) f
  end.

(** [this._wrap(nodule, name, wrapper)] and [this._unwrap(nodule, name)] *)
Definition wrap_method (nodule : Prototype) (name : MethodName)
    (wrapper : Wrapper) : Prototype :=
  set_method nodule name (_wrap (get_method nodule name) wrapper).

Definition unwrap_method (nodule : Prototype) (name : MethodName) : Prototype :=
  set_method nodule name (_unwrap (get_method nodule name)).

(** The module handed to the patch and unpatch functions: an ES module
    namespace ([module[Symbol.toStringTag] === 'Module'], the class is
    [module.default]) or the CommonJS exports (the class is [module]); in
    both cases the class has a [prototype]. *)
Inductive NodeModule : Type :=
| ESM (default : Prototype)
| CommonJS (prototype : Prototype).

Definition moduleExports_prototype (module : NodeModule) : Prototype :=
  match module with
  | ESM prototype => prototype
  | CommonJS prototype => prototype
  end.

(** The prototype is changed in place: the module keeps its shape. *)
Definition with_prototype (module : NodeModule) (prototype : Prototype)
  : NodeModule :=
  match module with
  | ESM _ => ESM prototype
  | CommonJS _ => CommonJS prototype
  end.

(** Lines 69-91: the patch function; it returns [module]. *)
Definition init_patch (module : NodeModule) (moduleVersion : Value) : NodeModule :=
  let prototype := moduleExports_prototype module in
  let prototype :=
    if isWrapped (get_method prototype SendCommand)
    then unwrap_method prototype SendCommand else prototype in
  let prototype :=
    wrap_method prototype SendCommand (_patchSendCommand moduleVersion) in
  let prototype :=
    if isWrapped (get_method prototype Connect)
    then unwrap_method prototype Connect else prototype in
  let prototype := wrap_method prototype Connect _patchConnection in
  with_prototype module prototype.

(** Lines 92-100: the unpatch function; [None] is [module === undefined].
    The result is the module as the function leaves it. *)
Definition init_unpatch (module : option NodeModule) : option NodeModule :=
  match module with
  | None => None
  | Some module =>
      let prototype := moduleExports_prototype module in
      let prototype := unwrap_method prototype SendCommand in
      let prototype := unwrap_method prototype Connect in
      Some (with_prototype module prototype)
  end.

End Registration.

Arguments mkPrototype {Fn} sendCommand connect.
Arguments sendCommand {Fn} p.
Arguments connect {Fn} p.
Arguments get_method {Fn} prototype name.
Arguments set_method {Fn} prototype name f.
Arguments wrap_method {Fn} _wrap nodule name wrapper.
Arguments unwrap_method {Fn} _unwrap nodule name.
Arguments ESM {Fn} default.
Arguments CommonJS {Fn} prototype.
Arguments moduleExports_prototype {Fn} module.
Arguments with_prototype {Fn} module prototype.
Arguments init_patch {Fn} isWrapped _wrap _unwrap module moduleVersion.
Arguments init_unpatch {Fn} _unwrap module.

(** ** A prototype whose methods are marked the way shimmer marks them

    A property holds a plain value or the function that a wrapper returned
    for an original, which carries [__original], [__unwrap] and
    [__wrapped].  [shimmer_wrap] refuses what is falsy or not a function,
    [shimmer_unwrap] puts [__original] back and leaves a plain value alone. *)
Inductive Method : Type :=
| Plain (v : Value)
| Wrapped (wrapper : Wrapper) (original : Method).

Definition is_function (m : Method) : bool :=
  match m with
  | Plain v => String.eqb (typeof v) "function"
  | Wrapped _ _ => true
  end.

Definition shimmer_isWrapped (func : Method) : bool :=
  match func with
  | Plain _ => false
  | Wrapped _ original => is_function original
  end.

Definition shimmer_wrap (original : Method) (wrapper : Wrapper) : Method :=
  if is_function original then Wrapped wrapper original else original.

Definition shimmer_unwrap (wrapped : Method) : Method :=
  match wrapped with
  | Plain _ => wrapped
  | Wrapped _ original => original
  end.

Definition demo_module : NodeModule Method :=
  CommonJS (mkPrototype (Plain (VHost 0)) (Plain (VHost 1))).

Definition demo_module_wrapped : NodeModule Method :=
  ESM (mkPrototype (Wrapped (PatchSendCommand (VStr "4.0.0")) (Plain (VHost 0)))
         (Plain VUndefined)).

(** ** More of the scenario *)

(** The span of the command [get foo] as the dispatch wrapper opens it in
    [demo_world] with the serializer 3, and the span of a connect. *)
Definition demo_span_get : Span :=
  mkSpan (VStr "get") CLIENT
    (<[ATTR_DB_QUERY_TEXT := VStr "get foo"]>
       (<[ATTR_DB_STATEMENT := VStr "get foo"]>
          (<[ATTR_DB_OPERATION_NAME := VStr "get"]>
             (getClientAttributes (VStr "localhost") (VNum 6379)
                SemconvStability.DUPLICATE))))
    [] (UNSET, VUndefined) 0.

Definition demo_span_connect : Span :=
  mkSpan (VStr "connect") CLIENT
    (<[ATTR_DB_QUERY_TEXT := VStr "connect"]>
       (<[ATTR_DB_STATEMENT := VStr "connect"]>
          (getClientAttributes (VStr "localhost") (VNum 6379)
             SemconvStability.DUPLICATE)))
    [] (UNSET, VUndefined) 0.

(** [demo_world] after the command [get foo] went through the dispatch
    wrapper: span 1 is open and the command carries the two closures. *)
Definition demo_dispatched : World :=
  snd (_traceSendCommand demo_extern (VHost 3) (demo_instrumentation ∅) (VHost 0)
         (VStr "5.4.1") (VObj 1) [VObj 0] demo_world).

(** The same command on its way through the wrapper a second time: span 2
    has been started for it. *)
Definition demo_redispatched : World :=
  span_opened (VStr "get") ∅ demo_dispatched.
(** * Properties *)

(** ** Flag words *)

Lemma ToInt32_mod (z : Z) : ToInt32 z mod 2 ^ 32 = z mod 2 ^ 32.
Proof.
  unfold ToInt32.
  rewrite Zminus_mod, Zmod_mod, <- Zminus_mod.
  replace (z + 2 ^ 31 - 2 ^ 31) with z by lia. reflexivity.
Qed.

Lemma ToInt32_testbit (z : Z) (i : Z) :
  0 <= i < 32 -> Z.testbit (ToInt32 z) i = Z.testbit z i.
Proof.
  intros Hi.
  rewrite <- (Z.mod_pow2_bits_low (ToInt32 z) 32 i) by lia.
  rewrite ToInt32_mod. apply Z.mod_pow2_bits_low. lia.
Qed.

Lemma land_pow2_testbit (x i : Z) :
  0 <= i -> negb (Z.eqb (Z.land x (2 ^ i)) 0) = Z.testbit x i.
Proof.
  intros Hi.
  destruct (Z.testbit x i) eqn:Hb.
  - apply negb_true_iff, Z.eqb_neq. intros H0.
    assert (Ht : Z.testbit (Z.land x (2 ^ i)) i = true).
    { rewrite Z.land_spec, Hb, Z.pow2_bits_true by lia. reflexivity. }
    rewrite H0, Z.bits_0 in Ht. discriminate.
  - apply negb_false_iff, Z.eqb_eq. apply Z.bits_inj'. intros n Hn.
    rewrite Z.land_spec, Z.bits_0.
    destruct (Z.eq_dec i n) as [-> | Hne].
    + rewrite Hb. reflexivity.
    + rewrite (Z.pow2_bits_false i n) by lia. apply andb_false_r.
Qed.

Lemma has_flag_OLD (s : Z) : has_flag s SemconvStability.OLD = Z.testbit s 1.
Proof.
  unfold has_flag, bitand.
  change (ToInt32 SemconvStability.OLD) with (2 ^ 1).
  rewrite land_pow2_testbit by lia. apply ToInt32_testbit. lia.
Qed.

Lemma has_flag_STABLE (s : Z) : has_flag s SemconvStability.STABLE = Z.testbit s 0.
Proof.
  unfold has_flag, bitand.
  change (ToInt32 SemconvStability.STABLE) with (2 ^ 0).
  rewrite land_pow2_testbit by lia. apply ToInt32_testbit. lia.
Qed.

(** ** The attribute builder *)

Lemma legacy_stable_disjoint : legacy_keys ## stable_keys.
Proof. apply (bool_decide_unpack _). vm_compute. exact I. Qed.

(** C4.  For every convention-mode word, [getClientAttributes] (a pure
    function) writes the four legacy keys exactly when the OLD bit is set
    and the three new keys exactly when the STABLE bit is set, with the
    values the rule gives; the keys of the map are the union of the groups
    selected, and the two groups share no key. *)
Theorem C4_getClientAttributes_keys (host port : Value) (s : Z) :
  let attributes := getClientAttributes host port s in
  let old := Z.testbit s 1 in
  let stable := Z.testbit s 0 in
  attributes !! ATTR_DB_SYSTEM = (if old then Some (VStr "redis") else None) /\
  attributes !! ATTR_NET_PEER_NAME = (if old then Some host else None) /\
  attributes !! ATTR_NET_PEER_PORT = (if old then Some port else None) /\
  attributes !! ATTR_DB_CONNECTION_STRING =
    (if old then Some (VStr ("redis://" +:+ ToString host +:+ ":" +:+ ToString port))
     else None) /\
  attributes !! ATTR_DB_SYSTEM_NAME = (if stable then Some (VStr "redis") else None) /\
  attributes !! ATTR_SERVER_ADDRESS = (if stable then Some host else None) /\
  attributes !! ATTR_SERVER_PORT = (if stable then Some port else None) /\
  dom attributes =
    (if old then legacy_keys else ∅) ∪ (if stable then stable_keys else ∅) /\
  legacy_keys ## stable_keys.
Proof.
  cbv zeta. rewrite <- has_flag_OLD, <- has_flag_STABLE.
  unfold getClientAttributes, Object_assign.
  destruct (has_flag s SemconvStability.OLD), (has_flag s SemconvStability.STABLE);
    repeat split;
    try (unfold ATTR_DB_SYSTEM, ATTR_NET_PEER_NAME, ATTR_NET_PEER_PORT,
           ATTR_DB_CONNECTION_STRING, ATTR_DB_SYSTEM_NAME, ATTR_SERVER_ADDRESS,
           ATTR_SERVER_PORT; simplify_map_eq; reflexivity);
    try apply legacy_stable_disjoint;
    unfold legacy_keys, stable_keys;
    rewrite ?dom_union_L, ?dom_insert_L, ?dom_empty_L; set_solver.
Qed.

(** ** Frames: what a run leaves alone *)

Lemma get_prop_world (o : Value) (k : string) (w : World) :
  snd (get_prop o k w) = w.
Proof. destruct o; reflexivity. Qed.

Lemma get_prop_ok (o : Value) (k : string) (w : World) :
  nullish o = false -> exists v, get_prop o k w = (Ok v, w).
Proof. destruct o; intros H; try discriminate; eexists; reflexivity. Qed.

Lemma get_prop_obj (r : nat) (k : string) (w : World) :
  get_prop (VObj r) k w = (Ok (heap_get (heap w) r k), w).
Proof. reflexivity. Qed.

Section Frame.

Variable extern : nat -> Value -> list Value -> gmap nat (gmap string Value) ->
                  HostResult * gmap nat (gmap string Value).
Variable R : World -> World -> Prop.
Hypothesis R_refl : forall w, R w w.
Hypothesis R_trans : forall a b c, R a b -> R b c -> R a c.

Lemma steps_ret {A} (a : A) : steps R (ret a).
Proof. intros w. apply R_refl. Qed.

Lemma steps_throw {A} (e : Value) : steps R (@throw A e).
Proof. intros w. apply R_refl. Qed.

Lemma steps_bind {A B} (m : M A) (k : A -> M B) :
  steps R m -> (forall a, steps R (k a)) -> steps R (bind m k).
Proof.
  intros Hm Hk w. unfold bind. specialize (Hm w).
  destruct (m w) as [[a | e] w1]; simpl in *.
  - eapply R_trans; [exact Hm | apply Hk].
  - exact Hm.
Qed.

Lemma steps_try_catch {A} (m : M A) (handler : Value -> M A) :
  steps R m -> (forall e, steps R (handler e)) -> steps R (try_catch m handler).
Proof.
  intros Hm Hh w. unfold try_catch. specialize (Hm w).
  destruct (m w) as [[a | e] w1]; simpl in *.
  - exact Hm.
  - eapply R_trans; [exact Hm | apply Hh].
Qed.

Lemma steps_get_prop (o : Value) (k : string) : steps R (get_prop o k).
Proof. intros w. rewrite get_prop_world. apply R_refl. Qed.

Lemma steps_safeExecuteInTheMiddle (execute : M Value)
    (onFinish : Value -> Value -> M unit) (prevent : bool) :
  steps R execute -> (forall e r, steps R (onFinish e r)) ->
  steps R (safeExecuteInTheMiddle execute onFinish prevent).
Proof.
  intros He Hf w. unfold safeExecuteInTheMiddle. specialize (He w).
  destruct (execute w) as [[r | e] w1]; simpl in *.
  - eapply R_trans; [exact He |].
    apply (steps_bind (onFinish VUndefined r) (fun _ => ret r));
      [apply Hf | intros; apply steps_ret].
  - eapply R_trans; [exact He |].
    apply (steps_bind (onFinish e VUndefined)
             (fun _ => if truthy e && negb prevent then throw e else ret VUndefined));
      [apply Hf |].
    intros _. destruct (truthy e && negb prevent);
      [apply steps_throw | apply steps_ret].
Qed.

Hypothesis R_host : forall f this args, steps R (call_host extern f this args).
Hypothesis R_record : forall id e, steps R (recordException id e).
Hypothesis R_status : forall id code message, steps R (setStatus id code message).
Hypothesis R_end : forall id, steps R (span_end id).
Hypothesis R_diag : forall message e, steps R (diag_error message e).

Lemma steps_endSpan (span : nat) (err : Value) : steps R (endSpan span err).
Proof.
  unfold endSpan. apply steps_bind; [| intros; apply R_end].
  destruct (truthy err); [| apply steps_ret].
  apply steps_bind; [apply R_record |]. intros _.
  apply steps_bind; [apply steps_get_prop |]. intros m. apply R_status.
Qed.

Lemma steps_hook_failed (message : string) (e : Value) :
  steps R (if truthy e then diag_error message e else ret tt).
Proof. destruct (truthy e); [apply R_diag | apply steps_ret]. Qed.

Lemma steps_call (f this : Value) (args : list Value) :
  steps R (call extern f this args).
Proof.
  revert this args.
  induction f as [ | | | | | | | | | id | span cmd _ hook IHhook orig IHorig
                 | span orig IHorig ];
    intros this args; simpl; try apply steps_throw.
  - apply R_host.
  - apply steps_bind.
    + apply steps_safeExecuteInTheMiddle.
      * destruct (nullish hook); [apply steps_ret |].
        apply steps_bind; [apply steps_get_prop |]. intros n.
        apply steps_bind; [apply steps_get_prop |]. intros a. apply IHhook.
      * intros e r. apply steps_hook_failed.
    + intros _. apply steps_bind; [apply steps_endSpan |]. intros _.
      apply steps_bind; [apply IHorig |]. intros _. apply steps_ret.
  - apply steps_bind; [apply steps_endSpan |]. intros _.
    apply steps_bind; [apply IHorig |]. intros _. apply steps_ret.
Qed.

Lemma steps_settle (cmd : Value) (s : Settlement) : steps R (settle extern cmd s).
Proof.
  destruct s; simpl; (apply steps_bind; [apply steps_get_prop |]);
    intros f; apply steps_call.
Qed.

Lemma steps_sendCommand_requestHook (config : gmap string Value)
    (moduleVersion cmd : Value) (span : nat) :
  steps R (sendCommand_requestHook extern config moduleVersion cmd span).
Proof.
  unfold sendCommand_requestHook.
  destruct (truthy (config_get config "requestHook")); [| apply steps_ret].
  apply steps_bind; [| intros; apply steps_ret].
  apply steps_safeExecuteInTheMiddle.
  - apply steps_bind; [apply steps_get_prop |]. intros n.
    apply steps_bind; [apply steps_get_prop |]. intros a. apply steps_call.
  - intros e r. apply steps_hook_failed.
Qed.

Lemma steps_sendCommand_attributes (instrumentation : Instrumentation)
    (serializer this cmd : Value) :
  steps R (sendCommand_attributes extern instrumentation serializer this cmd).
Proof.
  unfold sendCommand_attributes.
  repeat (apply steps_bind; [apply steps_get_prop |]; intros ?).
  apply steps_bind; [apply steps_call |]. intros ?. apply steps_ret.
Qed.

Lemma steps_connection_dispatch (original this : Value) (arguments : list Value)
    (span : nat) :
  steps R (connection_dispatch extern original this arguments span).
Proof.
  unfold connection_dispatch. apply steps_try_catch.
  - apply steps_bind; [apply steps_call |]. intros c.
    apply steps_bind; [apply steps_endSpan |]. intros _. apply steps_ret.
  - intros e. apply steps_bind; [apply steps_endSpan |]. intros _. apply steps_throw.
Qed.

Hypothesis R_set : forall o k v, steps R (set_prop o k v).

Lemma steps_sendCommand_dispatch (config : gmap string Value)
    (original this : Value) (arguments : list Value) (cmd : Value) (span : nat) :
  steps R (sendCommand_dispatch extern config original this arguments cmd span).
Proof.
  unfold sendCommand_dispatch. apply steps_try_catch.
  - apply steps_bind; [apply steps_call |]. intros r.
    apply steps_bind; [apply steps_get_prop |]. intros a.
    apply steps_bind; [apply R_set |]. intros _.
    apply steps_bind; [apply steps_get_prop |]. intros b.
    apply steps_bind; [apply R_set |]. intros _. apply steps_ret.
  - intros e. apply steps_bind; [apply steps_endSpan |]. intros _. apply steps_throw.
Qed.

End Frame.

(** ** The number of spans, and the identity of the spans that exist *)

Section SpanCount.

Variable extern : nat -> Value -> list Value -> gmap nat (gmap string Value) ->
                  HostResult * gmap nat (gmap string Value).

Lemma count_refl w : same_span_count w w.
Proof. reflexivity. Qed.

Lemma count_trans a b c :
  same_span_count a b -> same_span_count b c -> same_span_count a c.
Proof. unfold same_span_count. congruence. Qed.

Lemma count_host f this args : steps same_span_count (call_host extern f this args).
Proof.
  intros w. unfold call_host, same_span_count.
  destruct (extern f this args _) as [[v | e] h]; reflexivity.
Qed.

Lemma count_record id e : steps same_span_count (recordException id e).
Proof. intros w. unfold same_span_count. simpl. apply length_alter. Qed.

Lemma count_status id code message : steps same_span_count (setStatus id code message).
Proof. intros w. unfold same_span_count. simpl. apply length_alter. Qed.

Lemma count_end id : steps same_span_count (span_end id).
Proof. intros w. unfold same_span_count. simpl. apply length_alter. Qed.

Lemma count_diag message e : steps same_span_count (diag_error message e).
Proof. intros w. reflexivity. Qed.

Lemma count_set o k v : steps same_span_count (set_prop o k v).
Proof. intros w. destruct o; reflexivity. Qed.

Ltac count_frame :=
  first [ exact count_refl | exact count_trans | exact count_host
        | exact count_record | exact count_status | exact count_end
        | exact count_diag | exact count_set ].

Lemma count_call f this args : steps same_span_count (call extern f this args).
Proof.
  apply steps_call; count_frame.
Qed.

Lemma count_settle cmd s : steps same_span_count (settle extern cmd s).
Proof.
  apply steps_settle; count_frame.
Qed.

Lemma count_sendCommand_attributes instrumentation serializer this cmd :
  steps same_span_count
    (sendCommand_attributes extern instrumentation serializer this cmd).
Proof.
  apply steps_sendCommand_attributes; count_frame.
Qed.

Lemma count_sendCommand_requestHook config moduleVersion cmd span :
  steps same_span_count (sendCommand_requestHook extern config moduleVersion cmd span).
Proof.
  apply steps_sendCommand_requestHook; count_frame.
Qed.

Lemma count_sendCommand_dispatch config original this arguments cmd span :
  steps same_span_count
    (sendCommand_dispatch extern config original this arguments cmd span).
Proof.
  apply steps_sendCommand_dispatch; count_frame.
Qed.

Lemma count_connection_dispatch original this arguments span :
  steps same_span_count (connection_dispatch extern original this arguments span).
Proof.
  apply steps_connection_dispatch; count_frame.
Qed.

Lemma keep_refl w : spans_keep_identity w w.
Proof. intros id s H. exists s. auto. Qed.

Lemma keep_trans a b c :
  spans_keep_identity a b -> spans_keep_identity b c -> spans_keep_identity a c.
Proof.
  intros Hab Hbc id s H.
  destruct (Hab id s H) as (s1 & H1 & Hn1 & Hk1 & Ha1).
  destruct (Hbc id s1 H1) as (s2 & H2 & Hn2 & Hk2 & Ha2).
  exists s2. repeat split; congruence.
Qed.

Lemma keep_host f this args : steps spans_keep_identity (call_host extern f this args).
Proof.
  intros w. unfold call_host.
  destruct (extern f this args _) as [[v | e] h];
    intros i s H; exists s; simpl; auto.
Qed.

Lemma keep_alter (g : Span -> Span) (id : nat) (l : list Span) :
  (forall s, sp_name (g s) = sp_name s /\ sp_kind (g s) = sp_kind s /\
             sp_attributes (g s) = sp_attributes s) ->
  forall i s, l !! i = Some s ->
    exists s', alter g id l !! i = Some s' /\ sp_name s' = sp_name s /\
               sp_kind s' = sp_kind s /\ sp_attributes s' = sp_attributes s.
Proof.
  intros Hg i s H. destruct (decide (id = i)) as [-> | Hne].
  - exists (g s). split; [| apply Hg].
    rewrite list_lookup_alter_eq, H. reflexivity.
  - exists s. rewrite list_lookup_alter_ne by done. auto.
Qed.

Lemma keep_record id e : steps spans_keep_identity (recordException id e).
Proof. intros w i s H. simpl. apply keep_alter; [intros; simpl; auto | exact H]. Qed.

Lemma keep_status id code message :
  steps spans_keep_identity (setStatus id code message).
Proof. intros w i s H. simpl. apply keep_alter; [intros; simpl; auto | exact H]. Qed.

Lemma keep_end id : steps spans_keep_identity (span_end id).
Proof. intros w i s H. simpl. apply keep_alter; [intros; simpl; auto | exact H]. Qed.

Lemma keep_diag message e : steps spans_keep_identity (diag_error message e).
Proof. intros w i s H. exists s. simpl. auto. Qed.

Lemma keep_set o k v : steps spans_keep_identity (set_prop o k v).
Proof. intros w i s H. exists s. destruct o; simpl; auto. Qed.

Ltac keep_frame :=
  first [ exact keep_refl | exact keep_trans | exact keep_host
        | exact keep_record | exact keep_status | exact keep_end
        | exact keep_diag | exact keep_set ].

Lemma keep_sendCommand_requestHook config moduleVersion cmd span :
  steps spans_keep_identity
    (sendCommand_requestHook extern config moduleVersion cmd span).
Proof.
  apply steps_sendCommand_requestHook; keep_frame.
Qed.

Lemma keep_sendCommand_dispatch config original this arguments cmd span :
  steps spans_keep_identity
    (sendCommand_dispatch extern config original this arguments cmd span).
Proof.
  apply steps_sendCommand_dispatch; keep_frame.
Qed.

End SpanCount.

(** ** The two guards *)

Section Guards.

Variable extern : nat -> Value -> list Value -> gmap nat (gmap string Value) ->
                  HostResult * gmap nat (gmap string Value).
Variable defaultDbStatementSerializer : Value.

(** C6.  With [requireParentSpan] true in the configuration and no span
    active, the dispatch wrapper and the connect wrapper are the original
    called on the same receiver with the same arguments: same outcome,
    same world, and the span store has as many spans as before. *)
Theorem C6_no_parent_span_bypass
    (instrumentation : Instrumentation) (original moduleVersion this : Value)
    (arguments : list Value) (w : World) :
  config_get (getConfig instrumentation) "requireParentSpan" = VBool true ->
  active_span w = None ->
  _traceSendCommand extern defaultDbStatementSerializer instrumentation
    original moduleVersion this arguments w
    = call extern original this arguments w /\
  _traceConnection extern instrumentation original this arguments w
    = call extern original this arguments w /\
  length (spans (snd (call extern original this arguments w))) = length (spans w).
Proof.
  intros Hcfg Hactive. split; [| split].
  - unfold _traceSendCommand.
    destruct ((length arguments <? 1)%nat || _); [reflexivity |].
    unfold bind, getSpan_active. rewrite Hcfg, Hactive. reflexivity.
  - unfold _traceConnection, bind, getSpan_active.
    rewrite Hcfg, Hactive. reflexivity.
  - apply count_call.
Qed.

(** C3, as the code has it.  Called with no argument, or with a first
    argument whose [typeof] is not ["object"], the dispatch wrapper is the
    original called on the same receiver with the same arguments, and the
    span store has as many spans as before.  ([typeof null] is
    ["object"]: a null first argument is not among these calls.) *)
Theorem C3_non_object_bypass
    (instrumentation : Instrumentation) (original moduleVersion this : Value)
    (arguments : list Value) (w : World) :
  (length arguments < 1)%nat \/ typeof (arg 0 arguments) <> "object" ->
  _traceSendCommand extern defaultDbStatementSerializer instrumentation
    original moduleVersion this arguments w
    = call extern original this arguments w /\
  length (spans (snd (call extern original this arguments w))) = length (spans w).
Proof.
  intros Hguard. split; [| apply count_call].
  unfold _traceSendCommand.
  destruct Hguard as [Hlen | Htype].
  - apply Nat.ltb_lt in Hlen. rewrite Hlen. reflexivity.
  - apply String.eqb_neq in Htype. rewrite Htype, orb_true_r. reflexivity.
Qed.

End Guards.

(** ** The heap *)

Lemma heap_get_set_eq h r k v : heap_get (heap_set h r k v) r k = v.
Proof.
  unfold heap_get, heap_set. rewrite lookup_insert_eq, lookup_insert_eq. reflexivity.
Qed.

Lemma heap_get_set_key h r k k' v :
  k <> k' -> heap_get (heap_set h r k v) r k' = heap_get h r k'.
Proof.
  intros Hne. unfold heap_get, heap_set.
  rewrite lookup_insert_eq, lookup_insert_ne by done.
  destruct (h !! r); [reflexivity | rewrite lookup_empty; reflexivity].
Qed.

(** ** endSpan *)

Lemma endSpan_returns span err w : fst (endSpan span err w) = Ok tt.
Proof.
  unfold endSpan, bind. destruct err; try reflexivity; simpl.
  - destruct b; reflexivity.
  - destruct (Z.eqb n 0); reflexivity.
  - destruct (String.eqb s ""); reflexivity.
Qed.

Lemma endSpan_falsy span err w :
  truthy err = false -> endSpan span err w = (Ok tt, span_closed span w).
Proof. intros H. unfold endSpan, bind. rewrite H. reflexivity. Qed.

Lemma endSpan_null span w : endSpan span VNull w = (Ok tt, span_closed span w).
Proof. apply endSpan_falsy. reflexivity. Qed.

Lemma endSpan_error span error w :
  endSpan span (VObj error) w = (Ok tt, span_failed span (VObj error) w).
Proof.
  unfold span_failed, endSpan, bind, recordException, setStatus, span_end, get_prop,
    log_event, update_span, with_spans. simpl. f_equal. f_equal.
  - rewrite !list_alter_alter_eq. apply list_alter_ext; [| reflexivity].
    intros s _. reflexivity.
  - rewrite <- !app_assoc. reflexivity.
Qed.

(** [endSpan] takes [null] and [undefined] for no error: a function that
    throws [undefined] has its span ended without error information.  The
    failures of this development are Error objects. *)
Remark endSpan_undefined span w :
  endSpan span VUndefined w = (Ok tt, span_closed span w).
Proof. apply endSpan_falsy. reflexivity. Qed.

(** ** Calls *)

Section Calls.

Variable extern : nat -> Value -> list Value -> gmap nat (gmap string Value) ->
                  HostResult * gmap nat (gmap string Value).

Lemma call_host_eq f this args w :
  call extern (VHost f) this args w =
    match extern f this args (heap w) with
    | (Returns v, h) =>
        (Ok v, mkWorld (spans w) h (diag w) (events w ++ [EvCall f this args])
                 (active_span w))
    | (Raises error, h) =>
        (Throw (VObj error),
         mkWorld (spans w) h (diag w) (events w ++ [EvCall f this args])
           (active_span w))
    end.
Proof.
  simpl. unfold call_host. simpl.
  destruct (extern f this args (heap w)) as [[v | e] h]; reflexivity.
Qed.

(** Calling a value that is not a closure of the interceptor leaves the
    tracer alone; what it throws is an Error value. *)
Lemma call_plain f this args w :
  is_closure f = false ->
  tracer_untouched w (snd (call extern f this args w)) /\
  events (snd (call extern f this args w)) = events w ++ call_events f this args /\
  (forall e, fst (call extern f this args w) = Throw e -> truthy e = true).
Proof.
  intros Hf. destruct f; try discriminate;
    try (simpl; unfold tracer_untouched; rewrite app_nil_r;
         repeat split; intros e [= <-]; reflexivity).
  rewrite call_host_eq.
  destruct (extern f this args (heap w)) as [[v | e] h];
    unfold tracer_untouched; simpl; repeat split; try discriminate.
  intros e' [= <-]. reflexivity.
Qed.

Lemma sendCommand_dispatch_spec config original this args c span w :
  sendCommand_dispatch extern config original this args (VObj c) span w =
    match call extern original this args w with
    | (Ok result, w1) =>
        (Ok result,
         with_heap w1
           (heap_set
              (heap_set (heap w1) c "resolve"
                 (VResolve span (VObj c) (config_get config "responseHook")
                    (heap_get (heap w1) c "resolve")))
              c "reject" (VReject span (heap_get (heap w1) c "reject"))))
    | (Throw e, w1) => (Throw e, snd (endSpan span e w1))
    end.
Proof.
  unfold sendCommand_dispatch, try_catch, bind.
  destruct (call extern original this args w) as [[result | e] w1]; simpl.
  - rewrite heap_get_set_key by discriminate. reflexivity.
  - pose proof (endSpan_returns span e w1) as Hret.
    destruct (endSpan span e w1) as [[[] | e'] w2]; simpl in *;
      [reflexivity | discriminate].
Qed.

Lemma connection_dispatch_spec original this args span w :
  connection_dispatch extern original this args span w =
    match call extern original this args w with
    | (Ok client, w1) => (Ok client, snd (endSpan span VNull w1))
    | (Throw e, w1) => (Throw e, snd (endSpan span e w1))
    end.
Proof.
  unfold connection_dispatch, try_catch, bind.
  destruct (call extern original this args w) as [[client | e] w1]; simpl.
  - reflexivity.
  - pose proof (endSpan_returns span e w1) as Hret.
    destruct (endSpan span e w1) as [[[] | e'] w2]; simpl in *;
      [reflexivity | discriminate].
Qed.

End Calls.

(** ** The hooks and the closures *)

Section Hooks.

Variable extern : nat -> Value -> list Value -> gmap nat (gmap string Value) ->
                  HostResult * gmap nat (gmap string Value).

Lemma call_resolve_eq span cmd hook orig this args :
  call extern (VResolve span cmd hook orig) this args =
    (responseHook_phase extern span cmd hook (arg 0 args);;;
     endSpan span VNull;;;
     call extern orig VUndefined [arg 0 args];;;
     ret VUndefined).
Proof. reflexivity. Qed.

Lemma call_reject_eq span orig this args :
  call extern (VReject span orig) this args =
    (endSpan span (arg 0 args);;;
     call extern orig VUndefined [arg 0 args];;;
     ret VUndefined).
Proof. reflexivity. Qed.

(** [safeExecuteInTheMiddle] with [preventThrowingError] returns. *)
Lemma safeExecuteInTheMiddle_returns execute message w :
  exists v,
    fst (safeExecuteInTheMiddle execute
           (fun e _ => if truthy e then diag_error message e else ret tt) true w)
      = Ok v.
Proof.
  unfold safeExecuteInTheMiddle, bind.
  destruct (execute w) as [[r | e] w1]; simpl.
  - eexists. reflexivity.
  - rewrite andb_false_r. destruct (truthy e); eexists; reflexivity.
Qed.

Lemma sendCommand_requestHook_returns config moduleVersion cmd span w :
  fst (sendCommand_requestHook extern config moduleVersion cmd span w) = Ok tt.
Proof.
  unfold sendCommand_requestHook.
  destruct (truthy (config_get config "requestHook")); [| reflexivity].
  unfold bind at 1.
  match goal with
  | |- context [safeExecuteInTheMiddle ?ex _ true w] =>
      destruct (safeExecuteInTheMiddle_returns ex
                  "ioredis instrumentation: request hook failed" w) as [v Hv]
  end.
  unfold request_hook_failed.
  destruct (safeExecuteInTheMiddle _ _ true w) as [[r | e] w1]; simpl in *;
    [reflexivity | discriminate].
Qed.

(** A hook that is not a closure of the interceptor leaves the spans
    alone. *)
Lemma sendCommand_requestHook_spans config moduleVersion cmd span w :
  is_closure (config_get config "requestHook") = false ->
  spans (snd (sendCommand_requestHook extern config moduleVersion cmd span w))
    = spans w.
Proof.
  intros Hhook. unfold sendCommand_requestHook.
  destruct (truthy (config_get config "requestHook")); [| reflexivity].
  unfold bind at 1, safeExecuteInTheMiddle, bind at 1.
  rewrite (surjective_pairing (get_prop cmd "name" w)), get_prop_world.
  destruct (fst (get_prop cmd "name" w)) as [name | e]; simpl.
  2: { unfold request_hook_failed, bind. destruct (truthy e); reflexivity. }
  unfold bind at 1.
  rewrite (surjective_pairing (get_prop cmd "args" w)), get_prop_world.
  destruct (fst (get_prop cmd "args" w)) as [cmdArgs | e]; simpl.
  2: { unfold request_hook_failed, bind. destruct (truthy e); reflexivity. }
  destruct (call_plain extern (config_get config "requestHook") VUndefined
              [VSpan span; VRequestInfo moduleVersion name cmdArgs] w Hhook)
    as ((Hs & _) & _ & _).
  destruct (call extern _ _ _ w) as [[r | e] w1]; simpl in *.
  - exact Hs.
  - unfold request_hook_failed, bind. destruct (truthy e); simpl; exact Hs.
Qed.

Lemma responseHook_phase_absent span cmd hook result w :
  nullish hook = true ->
  responseHook_phase extern span cmd hook result w = (Ok VUndefined, w).
Proof.
  intros H. unfold responseHook_phase, safeExecuteInTheMiddle. rewrite H.
  reflexivity.
Qed.

Lemma responseHook_phase_eq span c hook result w :
  nullish hook = false ->
  responseHook_phase extern span (VObj c) hook result w =
    match call extern hook VUndefined
            [VSpan span; heap_get (heap w) c "name"; heap_get (heap w) c "args";
             result] w with
    | (Ok r, w1) => (Ok r, w1)
    | (Throw e, w1) =>
        (Ok VUndefined,
         if truthy e
         then with_diag w1
                (diag w1 ++ [("ioredis instrumentation: response hook failed", e)])
         else w1)
    end.
Proof.
  intros H. unfold responseHook_phase, safeExecuteInTheMiddle. rewrite H.
  cbv [bind response_hook_failed]. simpl.
  destruct (call extern hook _ _ w) as [[r | e] w1].
  - reflexivity.
  - rewrite andb_false_r. destruct (truthy e); reflexivity.
Qed.

Lemma responseHook_phase_spec span c hook result w :
  is_closure hook = false ->
  (exists v, fst (responseHook_phase extern span (VObj c) hook result w) = Ok v) /\
  spans (snd (responseHook_phase extern span (VObj c) hook result w)) = spans w /\
  events (snd (responseHook_phase extern span (VObj c) hook result w)) =
    events w ++
    (if nullish hook then []
     else call_events hook VUndefined
            [VSpan span; heap_get (heap w) c "name"; heap_get (heap w) c "args";
             result]).
Proof.
  intros Hhook. destruct (nullish hook) eqn:Hn.
  - rewrite responseHook_phase_absent by exact Hn. simpl.
    rewrite app_nil_r. eauto.
  - rewrite responseHook_phase_eq by exact Hn.
    destruct (call_plain extern hook VUndefined
                [VSpan span; heap_get (heap w) c "name";
                 heap_get (heap w) c "args"; result] w Hhook)
      as ((Hs & _) & He & _).
    destruct (call extern hook _ _ w) as [[r | e] w1]; simpl in *.
    + eauto.
    + destruct (truthy e); simpl; eauto.
Qed.

End Hooks.

(** ** Failures: of the hooks, and of the wrapped call *)

Section Failures.

Variable extern : nat -> Value -> list Value -> gmap nat (gmap string Value) ->
                  HostResult * gmap nat (gmap string Value).

Lemma endSpan_heap span err w : heap (snd (endSpan span err w)) = heap w.
Proof.
  destruct (truthy err) eqn:Ht.
  - unfold endSpan, bind. rewrite Ht. simpl.
    rewrite (surjective_pairing (get_prop err "message" _)), get_prop_world.
    destruct (fst (get_prop err "message" _)); reflexivity.
  - rewrite endSpan_falsy by exact Ht. reflexivity.
Qed.

(** C7.  The request hook and the response hook are run inside
    [safeExecuteInTheMiddle]: the request-hook statement never throws,
    whatever the hook is; when the hook [hq] throws, the statement
    returns in the world the hook left, with the error appended to the
    diagnostic log; when the response hook [hp] throws, the success
    callback goes on exactly as when it returns (the span is ended, the
    original callback is called with the result), again with the error
    logged. *)
Theorem C7_hook_failure_suppressed
    (config : gmap string Value) (moduleVersion orig this result : Value)
    (c span hq hp : nat) (w : World) :
  config_get config "requestHook" = VHost hq ->
  let name := heap_get (heap w) c "name" in
  let cmdArgs := heap_get (heap w) c "args" in
  let request := [VSpan span; VRequestInfo moduleVersion name cmdArgs] in
  let response := [VSpan span; name; cmdArgs; result] in
  (forall config' moduleVersion' cmd' span' w',
      fst (sendCommand_requestHook extern config' moduleVersion' cmd' span' w')
        = Ok tt) /\
  match extern hq VUndefined request (heap w) with
  | (Raises error, h) =>
      sendCommand_requestHook extern config moduleVersion (VObj c) span w =
        (Ok tt,
         mkWorld (spans w) h
           (diag w ++ [("ioredis instrumentation: request hook failed", VObj error)])
           (events w ++ [EvCall hq VUndefined request]) (active_span w))
  | (Returns _, h) =>
      sendCommand_requestHook extern config moduleVersion (VObj c) span w =
        (Ok tt,
         mkWorld (spans w) h (diag w)
           (events w ++ [EvCall hq VUndefined request]) (active_span w))
  end /\
  match extern hp VUndefined response (heap w) with
  | (Raises error, h) =>
      call extern (VResolve span (VObj c) (VHost hp) orig) this [result] w =
        (endSpan span VNull;;;
         call extern orig VUndefined [result];;;
         ret VUndefined)
          (mkWorld (spans w) h
             (diag w ++
                [("ioredis instrumentation: response hook failed", VObj error)])
             (events w ++ [EvCall hp VUndefined response]) (active_span w))
  | (Returns _, h) =>
      call extern (VResolve span (VObj c) (VHost hp) orig) this [result] w =
        (endSpan span VNull;;;
         call extern orig VUndefined [result];;;
         ret VUndefined)
          (mkWorld (spans w) h (diag w)
             (events w ++ [EvCall hp VUndefined response]) (active_span w))
  end.
Proof.
  intros Hq name cmdArgs request response. split; [| split].
  - intros. apply sendCommand_requestHook_returns.
  - unfold sendCommand_requestHook. rewrite Hq. simpl.
    cbv [bind safeExecuteInTheMiddle request_hook_failed call_host]. simpl.
    fold name cmdArgs request.
    destruct (extern hq VUndefined request (heap w)) as [[v | error] h];
      reflexivity.
  - destruct (extern hp VUndefined response (heap w)) as [[v | error] h] eqn:Hp;
      rewrite call_resolve_eq; change (arg 0 [result]) with result;
      unfold bind at 1; rewrite responseHook_phase_eq by reflexivity;
      rewrite call_host_eq; fold name cmdArgs response; rewrite Hp;
      reflexivity.
Qed.

(** C10.  When the original dispatch throws, the interceptor ends in the
    world that dispatch left, with [endSpan(span, error)] applied and
    nothing else: the heap is the one the dispatch left, so the
    [resolve] and [reject] fields of the command are not replaced (the
    two assignments follow the call inside the [try]). *)
Theorem C10_throw_leaves_callbacks
    (config : gmap string Value) (original this : Value) (arguments : list Value)
    (c span : nat) (e : Value) (w w1 : World) :
  call extern original this arguments w = (Throw e, w1) ->
  sendCommand_dispatch extern config original this arguments (VObj c) span w
    = (Throw e, snd (endSpan span e w1)) /\
  heap (snd (sendCommand_dispatch extern config original this arguments
               (VObj c) span w)) = heap w1 /\
  heap_get (heap (snd (sendCommand_dispatch extern config original this arguments
                         (VObj c) span w))) c "resolve"
    = heap_get (heap w1) c "resolve" /\
  heap_get (heap (snd (sendCommand_dispatch extern config original this arguments
                         (VObj c) span w))) c "reject"
    = heap_get (heap w1) c "reject".
Proof.
  intros Hthrow. rewrite sendCommand_dispatch_spec, Hthrow. simpl.
  rewrite endSpan_heap. auto.
Qed.

End Failures.

(** ** Settlement of a traced command *)

Section Settlement.

Variable extern : nat -> Value -> list Value -> gmap nat (gmap string Value) ->
                  HostResult * gmap nat (gmap string Value).

Lemma settle_resolve_spec c span hook orig result w :
  heap_get (heap w) c "resolve" = VResolve span (VObj c) hook orig ->
  is_closure hook = false -> is_closure orig = false ->
  spans (snd (settle extern (VObj c) (Resolves result) w))
    = alter closed_span span (spans w) /\
  events (snd (settle extern (VObj c) (Resolves result) w)) =
    events w ++
    (if nullish hook then []
     else call_events hook VUndefined
            [VSpan span; heap_get (heap w) c "name"; heap_get (heap w) c "args";
             result]) ++
    [EvEnd span] ++ call_events orig VUndefined [result].
Proof.
  intros Hres Hhook Horig.
  destruct (responseHook_phase_spec extern span c hook result w Hhook)
    as ([v Hv] & Hs & He).
  assert (Heq : settle extern (VObj c) (Resolves result) w =
                (call extern orig VUndefined [result];;; ret VUndefined)
                  (span_closed span
                     (snd (responseHook_phase extern span (VObj c) hook result w)))).
  { unfold settle, bind at 1. rewrite get_prop_obj, Hres, call_resolve_eq.
    change (arg 0 [result]) with result. unfold bind at 1.
    destruct (responseHook_phase extern span (VObj c) hook result w)
      as [[v' | e] wh]; simpl in Hv; [| discriminate].
    unfold bind at 1. rewrite endSpan_null. reflexivity. }
  rewrite Heq. clear Heq.
  set (wh := snd (responseHook_phase extern span (VObj c) hook result w)) in *.
  destruct (call_plain extern orig VUndefined [result] (span_closed span wh) Horig)
    as ((Hs' & _) & He' & _).
  unfold bind.
  destruct (call extern orig VUndefined [result] (span_closed span wh))
    as [[v'' | e] wo]; simpl in *; rewrite Hs', He', Hs, He;
    rewrite <- !app_assoc; auto.
Qed.

Lemma settle_reject_spec c span orig error w :
  heap_get (heap w) c "reject" = VReject span orig ->
  is_closure orig = false ->
  spans (snd (settle extern (VObj c) (Rejects error) w))
    = alter (failed_span (VObj error) (error_message (heap w) (VObj error))) span
        (spans w) /\
  events (snd (settle extern (VObj c) (Rejects error) w)) =
    events w ++
    [EvRecordException span (VObj error);
     EvSetStatus span ERROR (error_message (heap w) (VObj error));
     EvEnd span] ++ call_events orig VUndefined [VObj error].
Proof.
  intros Hrej Horig.
  assert (Heq : settle extern (VObj c) (Rejects error) w =
                (call extern orig VUndefined [VObj error];;; ret VUndefined)
                  (span_failed span (VObj error) w)).
  { unfold settle, bind at 1. rewrite get_prop_obj, Hrej, call_reject_eq.
    change (arg 0 [VObj error]) with (VObj error).
    unfold bind at 1. rewrite endSpan_error. reflexivity. }
  rewrite Heq. clear Heq.
  destruct (call_plain extern orig VUndefined [VObj error]
              (span_failed span (VObj error) w) Horig) as ((Hs' & _) & He' & _).
  unfold bind.
  destruct (call extern orig VUndefined [VObj error]
              (span_failed span (VObj error) w)) as [[v | e] wo];
    simpl in *; rewrite Hs', He'; rewrite <- !app_assoc; auto.
Qed.


End Settlement.

(** ** The traced path of the two wrappers *)

Section Traced.

Variable extern : nat -> Value -> list Value -> gmap nat (gmap string Value) ->
                  HostResult * gmap nat (gmap string Value).
Variable defaultDbStatementSerializer : Value.

Lemma startSpan_eq name attributes w :
  startSpan name CLIENT attributes w
    = (Ok (length (spans w)), span_opened name attributes w).
Proof. reflexivity. Qed.

Lemma traceSendCommand_traced instrumentation original moduleVersion this
    arguments w :
  let cmd := arg 0 arguments in
  let config := getConfig instrumentation in
  (length arguments <? 1)%nat || negb (String.eqb (typeof cmd) "object") = false ->
  is_true (config_get config "requireParentSpan")
    && match active_span w with None => true | Some _ => false end = false ->
  _traceSendCommand extern defaultDbStatementSerializer instrumentation
    original moduleVersion this arguments w =
    match sendCommand_attributes extern instrumentation
            (js_or (config_get config "dbStatementSerializer")
               defaultDbStatementSerializer) this cmd w with
    | (Throw e, wa) => (Throw e, wa)
    | (Ok attributes, wa) =>
        match get_prop cmd "name" wa with
        | (Throw e, wn) => (Throw e, wn)
        | (Ok name, wn) =>
            sendCommand_dispatch extern config original this arguments cmd
              (length (spans wn))
              (snd (sendCommand_requestHook extern config moduleVersion cmd
                      (length (spans wn)) (span_opened name attributes wn)))
        end
    end.
Proof.
  intros cmd config Hg1 Hg2. unfold _traceSendCommand.
  fold cmd. rewrite Hg1. fold config.
  unfold bind at 1, getSpan_active. rewrite Hg2.
  unfold bind at 1.
  destruct (sendCommand_attributes _ _ _ _ _ w) as [[attributes | e] wa];
    [| reflexivity].
  unfold bind at 1.
  destruct (get_prop cmd "name" wa) as [[name | e] wn]; [| reflexivity].
  unfold bind at 1. rewrite startSpan_eq.
  unfold bind at 1.
  pose proof (sendCommand_requestHook_returns extern config moduleVersion cmd
                (length (spans wn)) (span_opened name attributes wn)) as Hret.
  destruct (sendCommand_requestHook _ _ _ _ _ _) as [[[] | e] wh];
    simpl in Hret; [reflexivity | discriminate].
Qed.

Lemma traceSendCommand_untraced instrumentation original moduleVersion this
    arguments w :
  (length arguments <? 1)%nat
    || negb (String.eqb (typeof (arg 0 arguments)) "object")
    || is_true (config_get (getConfig instrumentation) "requireParentSpan")
       && match active_span w with None => true | Some _ => false end = true ->
  _traceSendCommand extern defaultDbStatementSerializer instrumentation
    original moduleVersion this arguments w
    = call extern original this arguments w.
Proof.
  intros Hg. unfold _traceSendCommand.
  destruct ((length arguments <? 1)%nat || _) eqn:Hg1; [reflexivity |].
  simpl in Hg. unfold bind, getSpan_active. rewrite Hg. reflexivity.
Qed.

Lemma traceConnection_untraced instrumentation original this arguments w :
  is_true (config_get (getConfig instrumentation) "requireParentSpan")
    && match active_span w with None => true | Some _ => false end = true ->
  _traceConnection extern instrumentation original this arguments w
    = call extern original this arguments w.
Proof.
  intros Hg. unfold _traceConnection, bind, getSpan_active. rewrite Hg.
  reflexivity.
Qed.

Lemma connection_attributes_world instrumentation this w :
  snd (connection_attributes instrumentation this w) = w.
Proof.
  unfold connection_attributes.
  unfold bind at 1.
  rewrite (surjective_pairing (get_prop this "options" w)), get_prop_world.
  destruct (fst (get_prop this "options" w)) as [options | e]; [| reflexivity].
  unfold bind at 1.
  rewrite (surjective_pairing (get_prop options "host" w)), get_prop_world.
  destruct (fst (get_prop options "host" w)) as [host | e]; [| reflexivity].
  unfold bind at 1.
  rewrite (surjective_pairing (get_prop options "port" w)), get_prop_world.
  destruct (fst (get_prop options "port" w)) as [port | e]; reflexivity.
Qed.

Lemma traceConnection_traced instrumentation original this arguments w :
  is_true (config_get (getConfig instrumentation) "requireParentSpan")
    && match active_span w with None => true | Some _ => false end = false ->
  _traceConnection extern instrumentation original this arguments w =
    match fst (connection_attributes instrumentation this w) with
    | Throw e => (Throw e, w)
    | Ok attributes =>
        connection_dispatch extern original this arguments (length (spans w))
          (span_opened (VStr "connect") attributes w)
    end.
Proof.
  intros Hg2. unfold _traceConnection.
  unfold bind at 1, getSpan_active. rewrite Hg2.
  unfold bind at 1.
  rewrite (surjective_pairing (connection_attributes instrumentation this w)),
    connection_attributes_world.
  destruct (fst (connection_attributes instrumentation this w)) as [attributes | e];
    [| reflexivity].
  unfold bind at 1. rewrite startSpan_eq. reflexivity.
Qed.

Lemma connection_attributes_ok instrumentation t w :
  nullish (heap_get (heap w) t "options") = false ->
  exists attributes,
    fst (connection_attributes instrumentation (VObj t) w) = Ok attributes.
Proof.
  intros Hopt. unfold connection_attributes.
  unfold bind at 1. rewrite get_prop_obj.
  destruct (get_prop_ok (heap_get (heap w) t "options") "host" w Hopt) as [h Hh].
  destruct (get_prop_ok (heap_get (heap w) t "options") "port" w Hopt) as [p Hp].
  unfold bind at 1. rewrite Hh. unfold bind at 1. rewrite Hp.
  eexists. reflexivity.
Qed.

End Traced.

(** ** The require-parent-span guard is strict *)

Section Strict.

Variable extern : nat -> Value -> list Value -> gmap nat (gmap string Value) ->
                  HostResult * gmap nat (gmap string Value).
Variable defaultDbStatementSerializer : Value.
Variable semconvStabilityFromStr : string -> Value -> Z.
Variable OTEL_SEMCONV_STABILITY_OPT_IN : Value.

Lemma merged_config_get (config : gmap string Value) (k : string) (v : Value) :
  config !! k = Some v ->
  config_get (InstrumentationBase_setConfig (spread DEFAULT_CONFIG config)) k = v.
Proof.
  intros H. unfold config_get, InstrumentationBase_setConfig, spread.
  erewrite lookup_union_Some_l; [reflexivity |].
  apply lookup_union_Some_l. exact H.
Qed.

Lemma is_true_false (v : Value) : v <> VBool true -> is_true v = false.
Proof.
  intros H. destruct v; try reflexivity. destruct b; [congruence | reflexivity].
Qed.

Lemma span_opened_length name attributes w :
  length (spans (span_opened name attributes w)) = S (length (spans w)).
Proof. unfold span_opened. simpl. rewrite length_app. simpl. lia. Qed.

(** C9.  A configuration that supplies [requireParentSpan] with any value
    other than the boolean [true] (an explicit [undefined] included: the
    spread copies it over the default) is stored with that value, by the
    constructor and by [setConfig] alike, and the guard does not fire:
    with no span active, the connect wrapper opens a span, and so does
    the dispatch wrapper for a command object whenever the attributes of
    the span can be computed (otherwise it throws what that computation
    threw). *)
Theorem C9_requireParentSpan_strict
    (this_instrumentation : Instrumentation) (config : gmap string Value)
    (v original moduleVersion : Value) (arguments rest : list Value)
    (t c : nat) (w : World) :
  config !! "requireParentSpan" = Some v ->
  v <> VBool true ->
  active_span w = None ->
  nullish (heap_get (heap w) t "options") = false ->
  let instrumentation :=
    setConfig semconvStabilityFromStr OTEL_SEMCONV_STABILITY_OPT_IN
      this_instrumentation config in
  let serializer :=
    js_or (config_get (getConfig instrumentation) "dbStatementSerializer")
      defaultDbStatementSerializer in
  config_get (getConfig instrumentation) "requireParentSpan" = v /\
  getConfig (constructor semconvStabilityFromStr OTEL_SEMCONV_STABILITY_OPT_IN config)
    = getConfig instrumentation /\
  length (spans (snd (_traceConnection extern instrumentation original (VObj t)
                        arguments w))) = S (length (spans w)) /\
  match fst (sendCommand_attributes extern instrumentation serializer (VObj t)
               (VObj c) w) with
  | Ok _ =>
      length (spans (snd (_traceSendCommand extern defaultDbStatementSerializer
                            instrumentation original moduleVersion (VObj t)
                            (VObj c :: rest) w))) = S (length (spans w))
  | Throw e =>
      fst (_traceSendCommand extern defaultDbStatementSerializer
             instrumentation original moduleVersion (VObj t) (VObj c :: rest) w)
        = Throw e
  end.
Proof.
  intros Hcfg Hv Hactive Hopt instrumentation serializer.
  assert (Hget : config_get (getConfig instrumentation) "requireParentSpan" = v).
  { apply merged_config_get. exact Hcfg. }
  assert (Hg2 : is_true (config_get (getConfig instrumentation) "requireParentSpan")
                  && match active_span w with None => true | Some _ => false end
                = false).
  { rewrite Hget, is_true_false by exact Hv. reflexivity. }
  split; [exact Hget |]. split; [reflexivity |]. split.
  - rewrite traceConnection_traced by exact Hg2.
    destruct (connection_attributes_ok instrumentation t w Hopt) as [attributes Ha].
    rewrite Ha.
    rewrite (count_connection_dispatch extern original (VObj t) arguments
               (length (spans w)) (span_opened (VStr "connect") attributes w)).
    apply span_opened_length.
  - rewrite (traceSendCommand_traced extern defaultDbStatementSerializer
               instrumentation original moduleVersion (VObj t) (VObj c :: rest) w
               eq_refl Hg2).
    change (arg 0 (VObj c :: rest)) with (VObj c). fold serializer.
    pose proof (count_sendCommand_attributes extern instrumentation serializer
                  (VObj t) (VObj c) w) as Hcount.
    destruct (sendCommand_attributes extern instrumentation serializer (VObj t)
                (VObj c) w) as [[attributes | e] wa]; cbn [fst snd] in *;
      [| reflexivity].
    rewrite get_prop_obj.
    rewrite (count_sendCommand_dispatch extern _ original (VObj t) (VObj c :: rest)
               (VObj c) (length (spans wa)) _).
    rewrite (count_sendCommand_requestHook extern _ moduleVersion (VObj c)
               (length (spans wa)) _).
    rewrite span_opened_length. f_equal. exact Hcount.
Qed.

End Strict.

(** ** The statement attributes *)

Section Statement.

Variable extern : nat -> Value -> list Value -> gmap nat (gmap string Value) ->
                  HostResult * gmap nat (gmap string Value).
Variable defaultDbStatementSerializer : Value.

Lemma get_prop_pair o k w : get_prop o k w = (fst (get_prop o k w), w).
Proof.
  rewrite (surjective_pairing (get_prop o k w)) at 1. rewrite get_prop_world.
  reflexivity.
Qed.

Lemma getClientAttributes_no_statement host port s :
  getClientAttributes host port s !! ATTR_DB_STATEMENT = None /\
  getClientAttributes host port s !! ATTR_DB_QUERY_TEXT = None.
Proof.
  unfold getClientAttributes, Object_assign.
  destruct (has_flag s SemconvStability.OLD), (has_flag s SemconvStability.STABLE);
    split;
    unfold ATTR_DB_SYSTEM, ATTR_NET_PEER_NAME, ATTR_NET_PEER_PORT,
      ATTR_DB_CONNECTION_STRING, ATTR_DB_SYSTEM_NAME, ATTR_SERVER_ADDRESS,
      ATTR_SERVER_PORT, ATTR_DB_STATEMENT, ATTR_DB_QUERY_TEXT;
    simplify_map_eq; reflexivity.
Qed.

Lemma sendCommand_attributes_spec instrumentation serializer this cmd w
    attributes wa :
  sendCommand_attributes extern instrumentation serializer this cmd w
    = (Ok attributes, wa) ->
  exists name cmdArgs dbStatement,
    get_prop cmd "name" w = (Ok name, w) /\
    get_prop cmd "args" w = (Ok cmdArgs, w) /\
    call extern serializer VUndefined [name; cmdArgs] w = (Ok dbStatement, wa) /\
    attributes !! ATTR_DB_STATEMENT =
      (if has_flag (_semconvStability instrumentation) SemconvStability.OLD
          && negb (nullish dbStatement)
       then Some dbStatement else None) /\
    attributes !! ATTR_DB_QUERY_TEXT =
      (if has_flag (_semconvStability instrumentation) SemconvStability.STABLE
          && negb (nullish dbStatement)
       then Some dbStatement else None).
Proof.
  unfold sendCommand_attributes.
  unfold bind at 1. rewrite (get_prop_pair cmd "name" w).
  destruct (fst (get_prop cmd "name" w)) as [name | e] eqn:Hname;
    cbv beta iota; [| intros [=]].
  unfold bind at 1. rewrite (get_prop_pair this "options" w).
  destruct (fst (get_prop this "options" w)) as [options | e]; cbv beta iota; [| intros [=]].
  unfold bind at 1. rewrite (get_prop_pair options "host" w).
  destruct (fst (get_prop options "host" w)) as [host | e]; cbv beta iota; [| intros [=]].
  unfold bind at 1. rewrite (get_prop_pair options "port" w).
  destruct (fst (get_prop options "port" w)) as [port | e]; cbv beta iota; [| intros [=]].
  unfold bind at 1. rewrite (get_prop_pair cmd "name" w), Hname. cbv beta iota.
  unfold bind at 1. rewrite (get_prop_pair cmd "args" w).
  destruct (fst (get_prop cmd "args" w)) as [cmdArgs | e]; cbv beta iota; [| intros [=]].
  unfold bind at 1.
  destruct (call extern serializer VUndefined [name; cmdArgs] w)
    as [[dbStatement | e] w'] eqn:Hser; cbv beta iota; [| intros [=]].
  unfold ret. intros [= <- <-].
  exists name, cmdArgs, dbStatement.
  split; [reflexivity |]. split; [reflexivity |]. split; [exact Hser |].
  destruct (getClientAttributes_no_statement host port
              (_semconvStability instrumentation)) as [Hst Hqt].
  destruct (has_flag _ SemconvStability.OLD),
    (has_flag _ SemconvStability.STABLE), (nullish dbStatement); simpl;
    split;
    unfold ATTR_DB_OPERATION_NAME, ATTR_DB_STATEMENT, ATTR_DB_QUERY_TEXT in *;
    simplify_map_eq; first [reflexivity | assumption].
Qed.

Lemma span_opened_lookup name attributes w :
  spans (span_opened name attributes w) !! length (spans w)
    = Some (mkSpan name CLIENT attributes [] (UNSET, VUndefined) 0).
Proof. unfold span_opened. simpl. apply list_lookup_middle. reflexivity. Qed.

Lemma no_new_span w w' :
  length (spans w') = length (spans w) -> spans w' !! length (spans w) = None.
Proof. intros H. apply lookup_ge_None. lia. Qed.

(** C8.  The span that the dispatch wrapper opens carries the statement
    the serializer in force returned (the configured one, or the default
    when none is configured): under [db.statement] exactly when the OLD
    bit is set and the statement is neither null nor undefined, under
    [db.query.text] exactly when the STABLE bit is set and the statement
    is neither null nor undefined.  A serializer that returns null
    leaves both keys out in every mode. *)
Theorem C8_statement_attributes
    (instrumentation : Instrumentation) (original moduleVersion this : Value)
    (arguments : list Value) (w : World) (sp : Span) :
  spans (snd (_traceSendCommand extern defaultDbStatementSerializer instrumentation
                original moduleVersion this arguments w)) !! length (spans w)
    = Some sp ->
  let cmd := arg 0 arguments in
  let serializer :=
    js_or (config_get (getConfig instrumentation) "dbStatementSerializer")
      defaultDbStatementSerializer in
  let mode := _semconvStability instrumentation in
  exists name cmdArgs dbStatement w',
    get_prop cmd "name" w = (Ok name, w) /\
    get_prop cmd "args" w = (Ok cmdArgs, w) /\
    call extern serializer VUndefined [name; cmdArgs] w = (Ok dbStatement, w') /\
    sp_attributes sp !! ATTR_DB_STATEMENT =
      (if Z.testbit mode 1 && negb (nullish dbStatement)
       then Some dbStatement else None) /\
    sp_attributes sp !! ATTR_DB_QUERY_TEXT =
      (if Z.testbit mode 0 && negb (nullish dbStatement)
       then Some dbStatement else None).
Proof.
  intros Hsp cmd serializer mode.
  destruct ((length arguments <? 1)%nat
            || negb (String.eqb (typeof cmd) "object")) eqn:Hg1.
  { exfalso. unfold _traceSendCommand in Hsp. fold cmd in Hsp. rewrite Hg1 in Hsp.
    rewrite no_new_span in Hsp by apply count_call. discriminate. }
  destruct (is_true (config_get (getConfig instrumentation) "requireParentSpan")
            && match active_span w with None => true | Some _ => false end)
    eqn:Hg2.
  { exfalso. unfold _traceSendCommand in Hsp. fold cmd in Hsp. rewrite Hg1 in Hsp.
    unfold bind at 1, getSpan_active in Hsp. rewrite Hg2 in Hsp.
    rewrite no_new_span in Hsp by apply count_call. discriminate. }
  rewrite (traceSendCommand_traced extern defaultDbStatementSerializer
             instrumentation original moduleVersion this arguments w Hg1 Hg2)
    in Hsp.
  fold cmd serializer in Hsp.
  pose proof (count_sendCommand_attributes extern instrumentation serializer
                this cmd w) as Hcount.
  destruct (sendCommand_attributes extern instrumentation serializer this cmd w)
    as [[attributes | e] wa] eqn:Hattr; cbn [fst snd] in *.
  2: { rewrite no_new_span in Hsp by exact Hcount. discriminate. }
  rewrite (get_prop_pair cmd "name" wa) in Hsp.
  destruct (fst (get_prop cmd "name" wa)) as [name' | e].
  2: { cbn [snd] in Hsp. rewrite no_new_span in Hsp by exact Hcount. discriminate. }
  destruct (sendCommand_attributes_spec instrumentation serializer this cmd w
              attributes wa Hattr)
    as (name & cmdArgs & dbStatement & Hname & Hargs & Hser & Hst & Hqt).
  exists name, cmdArgs, dbStatement, wa.
  split; [exact Hname |]. split; [exact Hargs |]. split; [exact Hser |].
  pose proof (span_opened_lookup name' attributes wa) as Hopen.
  apply (keep_sendCommand_requestHook extern (getConfig instrumentation)
           moduleVersion cmd (length (spans wa))) in Hopen.
  destruct Hopen as (s1 & Hs1 & _ & _ & Ha1).
  apply (keep_sendCommand_dispatch extern (getConfig instrumentation) original
           this arguments cmd (length (spans wa))) in Hs1.
  destruct Hs1 as (s2 & Hs2 & _ & _ & Ha2).
  unfold same_span_count in Hcount. rewrite <- Hcount in Hsp.
  rewrite Hs2 in Hsp. injection Hsp as <-.
  simpl in Ha1. rewrite Ha2, Ha1.
  subst mode. rewrite <- has_flag_OLD, <- has_flag_STABLE. auto.
Qed.

End Statement.

(** ** Every span that is opened is closed once *)

Section Lifecycle.

Variable extern : nat -> Value -> list Value -> gmap nat (gmap string Value) ->
                  HostResult * gmap nat (gmap string Value).
Variable defaultDbStatementSerializer : Value.

Lemma opened_since_nil w w' :
  length (spans w') = length (spans w) -> opened_since w w' = [].
Proof. intros H. unfold opened_since. apply drop_ge. lia. Qed.

Lemma opened_since_last w w' (l : list Span) (x : Span) :
  length l = length (spans w) -> spans w' = l ++ [x] -> opened_since w w' = [x].
Proof.
  intros Hlen Hsp. unfold opened_since. rewrite Hsp, <- Hlen.
  apply drop_app_length.
Qed.

Lemma alter_last (g : Span -> Span) (l : list Span) (x : Span) :
  alter g (length l) (l ++ [x]) = l ++ [g x].
Proof.
  replace (length l) with (length l + 0)%nat at 1 by lia.
  rewrite alter_app_r. reflexivity.
Qed.

(** The connect wrapper: the span it opens is ended once, with error
    information exactly when the original connect threw. *)
Lemma traceConnection_closes instrumentation f this arguments w :
  Forall
    (fun sp =>
       sp_ended sp = 1%nat /\
       error_info sp =
         match fst (_traceConnection extern instrumentation (VHost f) this
                      arguments w) with
         | Throw _ => true
         | Ok _ => false
         end)
    (opened_since w
       (snd (_traceConnection extern instrumentation (VHost f) this arguments w))).
Proof.
  destruct (is_true (config_get (getConfig instrumentation) "requireParentSpan")
            && match active_span w with None => true | Some _ => false end)
    eqn:Hg2.
  { rewrite traceConnection_untraced by exact Hg2.
    rewrite opened_since_nil by apply count_call. constructor. }
  rewrite traceConnection_traced by exact Hg2.
  destruct (fst (connection_attributes instrumentation this w)) as [attributes | e].
  2: { rewrite opened_since_nil by reflexivity. constructor. }
  rewrite connection_dispatch_spec, call_host_eq.
  destruct (extern f this arguments _) as [[v | err] h]; cbn [fst snd].
  - rewrite endSpan_null. cbn [snd].
    rewrite (opened_since_last w _ (spans w)
               (closed_span (mkSpan (VStr "connect") CLIENT attributes []
                               (UNSET, VUndefined) 0)));
      [| reflexivity | simpl; apply alter_last].
    repeat constructor.
  - rewrite endSpan_error. cbn [snd].
    rewrite (opened_since_last w _ (spans w)
               (failed_span (VObj err) (heap_get h err "message")
                  (mkSpan (VStr "connect") CLIENT attributes []
                     (UNSET, VUndefined) 0)));
      [| reflexivity | simpl; apply alter_last].
    repeat constructor.
Qed.

(** Functions of the application that never put a closure of the
    interceptor on the command [c] keep its callbacks plain through any
    run that does not assign them. *)
Section Plain.

Variable c : nat.
Hypothesis extern_plain :
  forall f this args h,
    callbacks_plain h c -> callbacks_plain (snd (extern f this args h)) c.

Lemma plain_refl w : keeps_plain c w w.
Proof. intros H. exact H. Qed.

Lemma plain_trans a b d : keeps_plain c a b -> keeps_plain c b d -> keeps_plain c a d.
Proof. unfold keeps_plain. auto. Qed.

Lemma plain_host f this args : steps (keeps_plain c) (call_host extern f this args).
Proof.
  intros w H. unfold call_host.
  pose proof (extern_plain f this args (heap w) H) as H'.
  simpl. destruct (extern f this args (heap w)) as [[v | e] h]; exact H'.
Qed.

Lemma plain_record id e : steps (keeps_plain c) (recordException id e).
Proof. intros w H. exact H. Qed.

Lemma plain_status id code message : steps (keeps_plain c) (setStatus id code message).
Proof. intros w H. exact H. Qed.

Lemma plain_end id : steps (keeps_plain c) (span_end id).
Proof. intros w H. exact H. Qed.

Lemma plain_diag message e : steps (keeps_plain c) (diag_error message e).
Proof. intros w H. exact H. Qed.

Ltac plain_frame :=
  first [ exact plain_refl | exact plain_trans | exact plain_host
        | exact plain_record | exact plain_status | exact plain_end
        | exact plain_diag ].

Lemma plain_sendCommand_attributes instrumentation serializer this cmd w :
  callbacks_plain (heap w) c ->
  callbacks_plain
    (heap (snd (sendCommand_attributes extern instrumentation serializer this
                  cmd w))) c.
Proof.
  apply (steps_sendCommand_attributes extern (keeps_plain c)); plain_frame.
Qed.

Lemma plain_sendCommand_requestHook config moduleVersion cmd span w :
  callbacks_plain (heap w) c ->
  callbacks_plain
    (heap (snd (sendCommand_requestHook extern config moduleVersion cmd span w)))
    c.
Proof.
  apply (steps_sendCommand_requestHook extern (keeps_plain c)); plain_frame.
Qed.

End Plain.

(** Functions of the application that never assign [resolve] or [reject]
    of the command [c] leave them as they are through every settlement. *)
Section Callbacks.

Variable c : nat.
Hypothesis extern_callbacks :
  forall g receiver args h, same_callbacks c h (snd (extern g receiver args h)).

Lemma callbacks_refl w : keeps_callbacks c w w.
Proof. split; reflexivity. Qed.

Lemma callbacks_trans a b d :
  keeps_callbacks c a b -> keeps_callbacks c b d -> keeps_callbacks c a d.
Proof.
  unfold keeps_callbacks, same_callbacks. intros [H1 H2] [H3 H4].
  split; congruence.
Qed.

Lemma callbacks_host f this args :
  steps (keeps_callbacks c) (call_host extern f this args).
Proof.
  intros w. unfold call_host.
  pose proof (extern_callbacks f this args (heap w)) as H.
  change (heap (log_event w (EvCall f this args))) with (heap w).
  destruct (extern f this args (heap w)) as [[v | e] h]; exact H.
Qed.

Lemma callbacks_record id e : steps (keeps_callbacks c) (recordException id e).
Proof. intros w. split; reflexivity. Qed.

Lemma callbacks_status id code message :
  steps (keeps_callbacks c) (setStatus id code message).
Proof. intros w. split; reflexivity. Qed.

Lemma callbacks_end id : steps (keeps_callbacks c) (span_end id).
Proof. intros w. split; reflexivity. Qed.

Lemma callbacks_diag message e : steps (keeps_callbacks c) (diag_error message e).
Proof. intros w. split; reflexivity. Qed.

Lemma callbacks_settle cmd s w :
  keeps_callbacks c w (snd (settle extern cmd s w)).
Proof.
  apply (steps_settle extern (keeps_callbacks c));
    first [ exact callbacks_refl | exact callbacks_trans | exact callbacks_host
          | exact callbacks_record | exact callbacks_status | exact callbacks_end
          | exact callbacks_diag ].
Qed.

Lemma extern_callbacks_plain g receiver args h :
  callbacks_plain h c -> callbacks_plain (snd (extern g receiver args h)) c.
Proof.
  intros [H1 H2]. destruct (extern_callbacks g receiver args h) as [E1 E2].
  split; congruence.
Qed.

Lemma error_info_failed err message sp : error_info (failed_span err message sp) = true.
Proof. unfold error_info. simpl. destruct (sp_exceptions sp); reflexivity. Qed.

(** Every settlement of a command that carries the two closures of the
    span [length l] ends that span once more; a rejection leaves error
    information on it, a resolution adds none. *)
Lemma settle_all_counts ss : forall hook origResolve origReject l x w,
  is_closure hook = false ->
  is_closure origResolve = false -> is_closure origReject = false ->
  heap_get (heap w) c "resolve" = VResolve (length l) (VObj c) hook origResolve ->
  heap_get (heap w) c "reject" = VReject (length l) origReject ->
  spans w = l ++ [x] ->
  exists x',
    spans (settle_all extern (VObj c) ss w) = l ++ [x'] /\
    sp_ended x' = (sp_ended x + length ss)%nat /\
    error_info x' = error_info x || existsb is_rejection ss.
Proof.
  induction ss as [| s ss IH]; intros hook origResolve origReject l x w
    Hhook HoR HoJ Hres Hrej Hsp; simpl.
  - exists x. split; [exact Hsp |]. split; [lia |].
    rewrite orb_false_r. reflexivity.
  - destruct (callbacks_settle (VObj c) s w) as [Kres Krej].
    rewrite Hres in Kres. rewrite Hrej in Krej.
    destruct s as [result | error].
    + destruct (settle_resolve_spec extern c (length l) hook origResolve result w
                  Hres Hhook HoR) as [Hfin _].
      rewrite Hsp, alter_last in Hfin.
      destruct (IH hook origResolve origReject l (closed_span x) _
                  Hhook HoR HoJ Kres Krej Hfin) as (x' & Hx' & Hn & He).
      exists x'. split; [exact Hx' |]. split.
      * rewrite Hn. simpl. lia.
      * rewrite He. reflexivity.
    + destruct (settle_reject_spec extern c (length l) origReject error w
                  Hrej HoJ) as [Hfin _].
      rewrite Hsp, alter_last in Hfin.
      destruct (IH hook origResolve origReject l (failed_span (VObj error) _ x) _
                  Hhook HoR HoJ Kres Krej Hfin) as (x' & Hx' & Hn & He).
      exists x'. split; [exact Hx' |]. split.
      * rewrite Hn. simpl. lia.
      * rewrite He, error_info_failed, orb_true_r. reflexivity.
Qed.

End Callbacks.

Lemma count_settle_all cmd ss : forall w,
  length (spans (settle_all extern cmd ss w)) = length (spans w).
Proof.
  induction ss as [| s ss IH]; intros w; simpl; [reflexivity |].
  rewrite IH. apply count_settle.
Qed.

(** The dispatch wrapper, followed by the settlements of the command. *)
Lemma command_settlements_closes instrumentation moduleVersion this rest f c ss w :
  let config := getConfig instrumentation in
  let arguments := VObj c :: rest in
  is_closure (config_get config "requestHook") = false ->
  is_closure (config_get config "responseHook") = false ->
  callbacks_plain (heap w) c ->
  (forall g receiver args h, same_callbacks c h (snd (extern g receiver args h))) ->
  let run :=
    command_settlements extern defaultDbStatementSerializer instrumentation
      (VHost f) moduleVersion this arguments ss w in
  Forall
    (fun sp =>
       sp_ended sp = match fst run with
                     | Throw _ => 1%nat
                     | Ok _ => length ss
                     end /\
       error_info sp = match fst run with
                       | Throw _ => true
                       | Ok _ => existsb is_rejection ss
                       end)
    (opened_since w (snd run)).
Proof.
  intros config arguments Hq Hp Hinit Hcb run. subst run.
  pose proof (extern_callbacks_plain c Hcb) as Hplain0.
  unfold command_settlements.
  change (arg 0 arguments) with (VObj c).
  destruct (is_true (config_get config "requireParentSpan")
            && match active_span w with None => true | Some _ => false end)
    eqn:Hg2.
  { rewrite traceSendCommand_untraced by exact Hg2.
    pose proof (count_call extern (VHost f) this arguments w) as Hc.
    destruct (call extern (VHost f) this arguments w) as [[v | e] w1];
      cbn [fst snd] in *.
    - rewrite opened_since_nil; [constructor |].
      rewrite count_settle_all. exact Hc.
    - rewrite opened_since_nil by exact Hc. constructor. }
  rewrite (traceSendCommand_traced extern defaultDbStatementSerializer
             instrumentation (VHost f) moduleVersion this arguments w
             eq_refl Hg2).
  change (arg 0 arguments) with (VObj c). fold config.
  pose proof (count_sendCommand_attributes extern instrumentation
                (js_or (config_get config "dbStatementSerializer")
                   defaultDbStatementSerializer) this (VObj c) w) as Hcount.
  pose proof (plain_sendCommand_attributes c Hplain0 instrumentation
                (js_or (config_get config "dbStatementSerializer")
                   defaultDbStatementSerializer) this (VObj c) w Hinit) as Hplain.
  destruct (sendCommand_attributes _ _ _ _ _ w) as [[attributes | e] wa];
    cbn [fst snd] in *.
  2: { rewrite opened_since_nil by exact Hcount. constructor. }
  rewrite get_prop_obj.
  set (fresh := mkSpan (heap_get (heap wa) c "name") CLIENT attributes []
                  (UNSET, VUndefined) 0).
  set (span := length (spans wa)).
  pose proof (sendCommand_requestHook_spans extern config moduleVersion (VObj c)
                span (span_opened (heap_get (heap wa) c "name") attributes wa) Hq)
    as Hhook.
  pose proof (plain_sendCommand_requestHook c Hplain0 config moduleVersion (VObj c)
                span (span_opened (heap_get (heap wa) c "name") attributes wa)
                Hplain) as Hplain'.
  set (wh := snd (sendCommand_requestHook extern config moduleVersion (VObj c)
                    span (span_opened (heap_get (heap wa) c "name") attributes wa)))
    in *.
  assert (Hspans : spans wh = spans wa ++ [fresh]) by exact Hhook.
  rewrite sendCommand_dispatch_spec, call_host_eq.
  pose proof (Hplain0 f this arguments (heap wh) Hplain') as Hplain1.
  destruct (extern f this arguments (heap wh)) as [[v | err] h1] eqn:Hext.
  - destruct Hplain1 as [Hres Hrej]. cbn [snd] in Hres, Hrej.
    cbv beta iota. cbn [fst snd].
    match goal with
    | |- context [settle_all extern (VObj c) ss ?x] => set (w2 := x)
    end.
    assert (Hw2 : spans w2 = spans wa ++ [fresh]) by exact Hspans.
    assert (Hres2 : heap_get (heap w2) c "resolve"
                    = VResolve (length (spans wa)) (VObj c)
                        (config_get config "responseHook")
                        (heap_get h1 c "resolve")).
    { subst w2. simpl. rewrite heap_get_set_key by discriminate.
      apply heap_get_set_eq. }
    assert (Hrej2 : heap_get (heap w2) c "reject"
                    = VReject (length (spans wa)) (heap_get h1 c "reject")).
    { subst w2. simpl. apply heap_get_set_eq. }
    destruct (settle_all_counts c Hcb ss _ _ _ (spans wa) fresh w2 Hp Hres Hrej
                Hres2 Hrej2 Hw2) as (x' & Hx' & Hn & He).
    rewrite (opened_since_last w _ (spans wa) x'); [| exact Hcount | exact Hx'].
    repeat constructor; [exact Hn | exact He].
  - rewrite endSpan_error. cbn [fst snd].
    rewrite (opened_since_last w _ (spans wa)
               (failed_span (VObj err) (heap_get h1 err "message") fresh));
      [| exact Hcount | simpl; rewrite Hspans; apply alter_last].
    repeat constructor.
Qed.

(** C1, as the code has it.  Every span that the connect wrapper opens is
    ended exactly once when the wrapper is left, with error information
    (an exception recorded and status ERROR) exactly when the original
    connect threw.  A span that the dispatch wrapper opens is ended exactly
    once, with error information, when the original dispatch throws.  When
    the original dispatch returns, the wrapper returns with the span not
    ended; from then on every call of the command's [resolve] ends it once
    more and every call of its [reject] ends it once more and leaves error
    information: after the settlements [ss] the span has been ended
    [length ss] times (once exactly when the command is settled once
    through these callbacks, never when it is not settled through them)
    and it carries error information exactly when one of them was a
    rejection.  What the original throws and what ioredis rejects with is
    an Error object.  The hooks and the callbacks that the caller put on
    the command are the application's, not closures of the interceptor,
    and the application's functions do not assign the command's [resolve]
    and [reject]. *)
Theorem C1_span_closed_once_per_exit
    (instrumentation : Instrumentation) (moduleVersion this this' : Value)
    (rest arguments' : list Value) (f f' c : nat) (ss : list Settlement)
    (w : World) :
  let config := getConfig instrumentation in
  let arguments := VObj c :: rest in
  is_closure (config_get config "requestHook") = false ->
  is_closure (config_get config "responseHook") = false ->
  callbacks_plain (heap w) c ->
  (forall g receiver args h, same_callbacks c h (snd (extern g receiver args h))) ->
  let command :=
    command_settlements extern defaultDbStatementSerializer instrumentation
      (VHost f) moduleVersion this arguments ss w in
  let connect :=
    _traceConnection extern instrumentation (VHost f') this' arguments' w in
  Forall
    (fun sp =>
       sp_ended sp = match fst command with
                     | Throw _ => 1%nat
                     | Ok _ => length ss
                     end /\
       error_info sp = match fst command with
                       | Throw _ => true
                       | Ok _ => existsb is_rejection ss
                       end)
    (opened_since w (snd command)) /\
  Forall
    (fun sp =>
       sp_ended sp = 1%nat /\
       error_info sp =
         match fst connect with
         | Throw _ => true
         | Ok _ => false
         end)
    (opened_since w (snd connect)).
Proof.
  intros config arguments Hq Hp Hinit Hcb command connect. split.
  - apply command_settlements_closes; assumption.
  - apply traceConnection_closes.
Qed.


End Lifecycle.

(** * The concrete application *)

(** ** Runs *)

Example demo_command_resolved :
  let run :=
    command_lifecycle demo_extern (VHost 3) (demo_instrumentation ∅) (VHost 0)
      (VStr "5.4.1") (VObj 1) [VObj 0] (Resolves (VStr "bar")) demo_world in
  fst run = Ok (VStr "promise") /\
  events (snd run) =
    [EvCall 3 VUndefined [VStr "get"; VObj 2];
     EvStartSpan 1;
     EvCall 0 (VObj 1) [VObj 0];
     EvEnd 1;
     EvCall 1 VUndefined [VStr "bar"]] /\
  map sp_ended (spans (snd run)) = [0; 1]%nat /\
  map sp_status (spans (snd run)) = [(UNSET, VUndefined); (UNSET, VUndefined)].
Proof. vm_compute. repeat split. Qed.

Example demo_command_rejected :
  let run :=
    command_lifecycle demo_extern (VHost 3) (demo_instrumentation ∅) (VHost 0)
      (VStr "5.4.1") (VObj 1) [VObj 0] (Rejects 9) demo_world in
  fst run = Ok (VStr "promise") /\
  events (snd run) =
    [EvCall 3 VUndefined [VStr "get"; VObj 2];
     EvStartSpan 1;
     EvCall 0 (VObj 1) [VObj 0];
     EvRecordException 1 (VObj 9);
     EvSetStatus 1 ERROR (VStr "boom");
     EvEnd 1;
     EvCall 2 VUndefined [VObj 9]] /\
  map sp_ended (spans (snd run)) = [0; 1]%nat /\
  map sp_status (spans (snd run)) = [(UNSET, VUndefined); (ERROR, VStr "boom")] /\
  map sp_exceptions (spans (snd run)) = [[]; [VObj 9]].
Proof. vm_compute. repeat split. Qed.

Example demo_connect_throws :
  let run :=
    _traceConnection demo_extern (demo_instrumentation ∅) (VHost 4) (VObj 1) []
      demo_world in
  fst run = Throw (VObj 9) /\
  events (snd run) =
    [EvStartSpan 1;
     EvCall 4 (VObj 1) [];
     EvRecordException 1 (VObj 9);
     EvSetStatus 1 ERROR (VStr "boom");
     EvEnd 1] /\
  map sp_name (spans (snd run)) = [VStr "request"; VStr "connect"] /\
  map sp_ended (spans (snd run)) = [0; 1]%nat.
Proof. vm_compute. repeat split. Qed.

Example demo_hooks_throw :
  let config : gmap string Value :=
    <["requestHook" := VHost 6]> (<["responseHook" := VHost 7]> ∅) in
  let run :=
    command_lifecycle demo_extern (VHost 3) (demo_instrumentation config) (VHost 0)
      (VStr "5.4.1") (VObj 1) [VObj 0] (Resolves (VStr "bar")) demo_world in
  fst run = Ok (VStr "promise") /\
  diag (snd run) =
    [("ioredis instrumentation: request hook failed", VObj 9);
     ("ioredis instrumentation: response hook failed", VObj 9)] /\
  map sp_ended (spans (snd run)) = [0; 1]%nat.
Proof. vm_compute. repeat split. Qed.

(** ** The theorems at the concrete application *)

(** The dispatch of [get foo] returns and ioredis never calls the closures
    (it settled the command before they were put on it, or not at all):
    the span that was opened is never ended.  ioredis resolves the command
    and then rejects it: the span is ended twice. *)
Lemma C1_counterexample :
  let returned :=
    command_settlements demo_extern (VHost 3) (demo_instrumentation ∅) (VHost 0)
      (VStr "5.4.1") (VObj 1) [VObj 0] [] demo_world in
  let twice :=
    command_settlements demo_extern (VHost 3) (demo_instrumentation ∅) (VHost 0)
      (VStr "5.4.1") (VObj 1) [VObj 0] [Resolves (VStr "bar"); Rejects 9]
      demo_world in
  fst returned = Ok (VStr "promise") /\
  map sp_ended (opened_since demo_world (snd returned)) = [0%nat] /\
  map sp_ended (opened_since demo_world (snd twice)) = [2%nat] /\
  ~ Forall (fun sp => sp_ended sp = 1%nat) (opened_since demo_world (snd returned)) /\
  ~ Forall (fun sp => sp_ended sp = 1%nat) (opened_since demo_world (snd twice)).
Proof.
  intros returned twice.
  assert (H0 : map sp_ended (opened_since demo_world (snd returned)) = [0%nat])
    by (vm_compute; reflexivity).
  assert (H2 : map sp_ended (opened_since demo_world (snd twice)) = [2%nat])
    by (vm_compute; reflexivity).
  split; [vm_compute; reflexivity |].
  split; [exact H0 |]. split; [exact H2 |]. split.
  - intros H. destruct (opened_since demo_world (snd returned)) as [| sp l];
      [discriminate H0 |].
    apply Forall_inv in H. simpl in H0. congruence.
  - intros H. destruct (opened_since demo_world (snd twice)) as [| sp l];
      [discriminate H2 |].
    apply Forall_inv in H. simpl in H2. congruence.
Qed.

Lemma demo_extern_callbacks (c : nat) :
  forall g receiver args h,
    same_callbacks c h (snd (demo_extern g receiver args h)).
Proof. intros g receiver args h. split; reflexivity. Qed.

(** The theorem at the command [get foo], rejected once by ioredis, and at
    a connect that throws. *)
Lemma C1_witness :
  is_closure (config_get (getConfig (demo_instrumentation ∅)) "requestHook") = false /\
  is_closure (config_get (getConfig (demo_instrumentation ∅)) "responseHook") = false /\
  callbacks_plain (heap demo_world) 0 /\
  Forall
    (fun sp =>
       sp_ended sp =
         match
           fst (command_settlements demo_extern (VHost 3) (demo_instrumentation ∅)
                  (VHost 0) (VStr "5.4.1") (VObj 1) [VObj 0] [Rejects 9] demo_world)
         with
         | Throw _ => 1%nat
         | Ok _ => length [Rejects 9]
         end /\
       error_info sp =
         match
           fst (command_settlements demo_extern (VHost 3) (demo_instrumentation ∅)
                  (VHost 0) (VStr "5.4.1") (VObj 1) [VObj 0] [Rejects 9] demo_world)
         with
         | Throw _ => true
         | Ok _ => existsb is_rejection [Rejects 9]
         end)
    (opened_since demo_world
       (snd (command_settlements demo_extern (VHost 3) (demo_instrumentation ∅)
               (VHost 0) (VStr "5.4.1") (VObj 1) [VObj 0] [Rejects 9] demo_world))) /\
  Forall
    (fun sp =>
       sp_ended sp = 1%nat /\
       error_info sp =
         match
           fst (_traceConnection demo_extern (demo_instrumentation ∅) (VHost 4)
                  (VObj 1) [] demo_world)
         with
         | Throw _ => true
         | Ok _ => false
         end)
    (opened_since demo_world
       (snd (_traceConnection demo_extern (demo_instrumentation ∅) (VHost 4)
               (VObj 1) [] demo_world))).
Proof.
  split; [reflexivity |]. split; [reflexivity |].
  split; [split; reflexivity |].
  apply (C1_span_closed_once_per_exit demo_extern (VHost 3) (demo_instrumentation ∅)
           (VStr "5.4.1") (VObj 1) (VObj 1) [] [] 0 4 0 [Rejects 9] demo_world).
  - reflexivity.
  - reflexivity.
  - split; reflexivity.
  - apply demo_extern_callbacks.
Defined.


(** Each of these two runs opened one span. *)
Example demo_opened_spans :
  length (opened_since demo_world
            (snd (command_lifecycle demo_extern (VHost 3) (demo_instrumentation ∅)
                    (VHost 0) (VStr "5.4.1") (VObj 1) [VObj 0] (Rejects 9)
                    demo_world))) = 1%nat /\
  length (opened_since demo_world
            (snd (_traceConnection demo_extern (demo_instrumentation ∅) (VHost 4)
                    (VObj 1) [] demo_world))) = 1%nat.
Proof. vm_compute. split; reflexivity. Qed.



(** A null first argument: with a span active the wrapper throws a TypeError on [cmd.name] and never calls
    the original, which would have returned. *)
Lemma C3_counterexample :
  typeof VNull = "object" /\
  _traceSendCommand demo_extern (VHost 3) (demo_instrumentation ∅) (VHost 0)
    (VStr "5.4.1") (VObj 1) [VNull] demo_world
    = (Throw (TypeError_read "name"), demo_world) /\
  fst (call demo_extern (VHost 0) (VObj 1) [VNull] demo_world) = Ok (VStr "promise") /\
  _traceSendCommand demo_extern (VHost 3) (demo_instrumentation ∅) (VHost 0)
    (VStr "5.4.1") (VObj 1) [VNull] demo_world
    <> call demo_extern (VHost 0) (VObj 1) [VNull] demo_world.
Proof.
  split; [reflexivity |]. split; [reflexivity |]. split; [reflexivity |].
  intros H. apply (f_equal fst) in H. vm_compute in H. discriminate H.
Qed.

(** The first guard at a call with no argument. *)
Lemma C3_witness :
  ((length (@nil Value) < 1)%nat \/ typeof (arg 0 []) <> "object") /\
  _traceSendCommand demo_extern (VHost 3) (demo_instrumentation ∅) (VHost 0)
    (VStr "5.4.1") (VObj 1) [] demo_world
    = call demo_extern (VHost 0) (VObj 1) [] demo_world /\
  length (spans (snd (call demo_extern (VHost 0) (VObj 1) [] demo_world)))
    = length (spans demo_world).
Proof.
  assert (H : (length (@nil Value) < 1)%nat \/ typeof (arg 0 []) <> "object").
  { left. simpl. lia. }
  split; [exact H |].
  exact (C3_non_object_bypass demo_extern (VHost 3) (demo_instrumentation ∅)
           (VHost 0) (VStr "5.4.1") (VObj 1) [] demo_world H).
Defined.

(** The second guard at the default configuration, with no span active. *)
Lemma C6_witness :
  config_get (getConfig (demo_instrumentation ∅)) "requireParentSpan" = VBool true /\
  active_span demo_world_root = None /\
  _traceSendCommand demo_extern (VHost 3) (demo_instrumentation ∅) (VHost 0)
    (VStr "5.4.1") (VObj 1) [VObj 0] demo_world_root
    = call demo_extern (VHost 0) (VObj 1) [VObj 0] demo_world_root /\
  _traceConnection demo_extern (demo_instrumentation ∅) (VHost 0) (VObj 1) [VObj 0]
    demo_world_root
    = call demo_extern (VHost 0) (VObj 1) [VObj 0] demo_world_root /\
  length (spans (snd (call demo_extern (VHost 0) (VObj 1) [VObj 0] demo_world_root)))
    = length (spans demo_world_root).
Proof.
  split; [reflexivity |]. split; [reflexivity |].
  exact (C6_no_parent_span_bypass demo_extern (VHost 3) (demo_instrumentation ∅)
           (VHost 0) (VStr "5.4.1") (VObj 1) [VObj 0] demo_world_root
           eq_refl eq_refl).
Defined.

(** A request hook (function 6) and a response hook (function 7) that
    throw the Error object 9. *)
Lemma C7_witness :
  let config : gmap string Value :=
    <["requestHook" := VHost 6]> (<["responseHook" := VHost 7]> ∅) in
  let request := [VSpan 1; VRequestInfo (VStr "5.4.1") (VStr "get") (VObj 2)] in
  let response := [VSpan 1; VStr "get"; VObj 2; VStr "bar"] in
  config_get config "requestHook" = VHost 6 /\
  sendCommand_requestHook demo_extern config (VStr "5.4.1") (VObj 0) 1 demo_world =
    (Ok tt,
     mkWorld [demo_parent] demo_heap
       [("ioredis instrumentation: request hook failed", VObj 9)]
       [EvCall 6 VUndefined request] (Some 0%nat)) /\
  call demo_extern (VResolve 1 (VObj 0) (VHost 7) (VHost 1)) (VObj 0) [VStr "bar"]
    demo_world =
    (endSpan 1 VNull;;;
     call demo_extern (VHost 1) VUndefined [VStr "bar"];;;
     ret VUndefined)
      (mkWorld [demo_parent] demo_heap
         [("ioredis instrumentation: response hook failed", VObj 9)]
         [EvCall 7 VUndefined response] (Some 0%nat)).
Proof.
  intros config request response.
  split; [reflexivity |].
  destruct (C7_hook_failure_suppressed demo_extern config (VStr "5.4.1") (VHost 1)
              (VObj 0) (VStr "bar") 0 1 6 7 demo_world eq_refl)
    as (_ & Hq & Hp).
  split; [exact Hq | exact Hp].
Defined.

(** A serializer (function 8) that returns null, in dual mode: the span
    has neither [db.statement] nor [db.query.text]. *)
Lemma C8_witness :
  let config : gmap string Value := <["dbStatementSerializer" := VHost 8]> ∅ in
  spans (snd (_traceSendCommand demo_extern (VHost 3) (demo_instrumentation config)
                (VHost 0) (VStr "5.4.1") (VObj 1) [VObj 0] demo_world))
    !! length (spans demo_world) = Some demo_span_without_statement /\
  exists name cmdArgs dbStatement w',
    get_prop (VObj 0) "name" demo_world = (Ok name, demo_world) /\
    get_prop (VObj 0) "args" demo_world = (Ok cmdArgs, demo_world) /\
    call demo_extern (VHost 8) VUndefined [name; cmdArgs] demo_world
      = (Ok dbStatement, w') /\
    sp_attributes demo_span_without_statement !! ATTR_DB_STATEMENT =
      (if Z.testbit SemconvStability.DUPLICATE 1 && negb (nullish dbStatement)
       then Some dbStatement else None) /\
    sp_attributes demo_span_without_statement !! ATTR_DB_QUERY_TEXT =
      (if Z.testbit SemconvStability.DUPLICATE 0 && negb (nullish dbStatement)
       then Some dbStatement else None).
Proof.
  intros config.
  assert (H : spans (snd (_traceSendCommand demo_extern (VHost 3)
                            (demo_instrumentation config) (VHost 0) (VStr "5.4.1")
                            (VObj 1) [VObj 0] demo_world))
                !! length (spans demo_world) = Some demo_span_without_statement).
  { vm_compute. reflexivity. }
  split; [exact H |].
  exact (C8_statement_attributes demo_extern (VHost 3) (demo_instrumentation config)
           (VHost 0) (VStr "5.4.1") (VObj 1) [VObj 0] demo_world
           demo_span_without_statement H).
Defined.

(** The two keys are absent from that span. *)
Example demo_null_statement_keys :
  sp_attributes demo_span_without_statement !! ATTR_DB_STATEMENT = None /\
  sp_attributes demo_span_without_statement !! ATTR_DB_QUERY_TEXT = None.
Proof. vm_compute. split; reflexivity. Qed.

(** [requireParentSpan: undefined] supplied, and no span active. *)
Lemma C9_witness :
  let config : gmap string Value := <["requireParentSpan" := VUndefined]> ∅ in
  let instrumentation :=
    setConfig demo_semconvStabilityFromStr (VStr "database/dup")
      (demo_instrumentation ∅) config in
  config !! "requireParentSpan" = Some VUndefined /\
  VUndefined <> VBool true /\
  active_span demo_world_root = None /\
  nullish (heap_get (heap demo_world_root) 1 "options") = false /\
  config_get (getConfig instrumentation) "requireParentSpan" = VUndefined /\
  length (spans (snd (_traceConnection demo_extern instrumentation (VHost 0)
                        (VObj 1) [] demo_world_root))) = 1%nat /\
  length (spans (snd (_traceSendCommand demo_extern (VHost 3) instrumentation
                        (VHost 0) (VStr "5.4.1") (VObj 1) [VObj 0]
                        demo_world_root))) = 1%nat.
Proof.
  intros config instrumentation.
  assert (Hv : VUndefined <> VBool true) by discriminate.
  split; [reflexivity |]. split; [exact Hv |].
  split; [reflexivity |]. split; [reflexivity |].
  destruct (C9_requireParentSpan_strict demo_extern (VHost 3)
              demo_semconvStabilityFromStr (VStr "database/dup")
              (demo_instrumentation ∅) config VUndefined (VHost 0) (VStr "5.4.1")
              [] [] 1 0 demo_world_root eq_refl Hv eq_refl eq_refl)
    as (Hget & _ & Hconnect & Hcommand).
  split; [exact Hget |]. split.
  - exact Hconnect.
  - destruct (fst (sendCommand_attributes _ _ _ _ _ _)) as [attributes | e] eqn:Ha
      in Hcommand.
    + exact Hcommand.
    + vm_compute in Ha. discriminate Ha.
Defined.

(** A dispatch (function 5) that throws the Error object 9. *)
Lemma C10_witness :
  let config := getConfig (demo_instrumentation ∅) in
  let w1 := snd (call demo_extern (VHost 5) (VObj 1) [VObj 0] demo_world) in
  let run :=
    sendCommand_dispatch demo_extern config (VHost 5) (VObj 1) [VObj 0] (VObj 0) 0
      demo_world in
  call demo_extern (VHost 5) (VObj 1) [VObj 0] demo_world = (Throw (VObj 9), w1) /\
  run = (Throw (VObj 9), snd (endSpan 0 (VObj 9) w1)) /\
  heap (snd run) = heap w1 /\
  heap_get (heap (snd run)) 0 "resolve" = VHost 1 /\
  heap_get (heap (snd run)) 0 "reject" = VHost 2.
Proof.
  intros config w1 run.
  assert (H : call demo_extern (VHost 5) (VObj 1) [VObj 0] demo_world
              = (Throw (VObj 9), w1)) by reflexivity.
  split; [exact H |].
  destruct (C10_throw_leaves_callbacks demo_extern config (VHost 5) (VObj 1)
              [VObj 0] 0 0 (VObj 9) demo_world w1 H) as (Hrun & Hheap & Hres & Hrej).
  split; [exact Hrun |]. split; [exact Hheap |]. split.
  - exact (eq_trans Hres eq_refl).
  - exact (eq_trans Hrej eq_refl).
Defined.

(** * Further properties of the two files *)

(** ** endSpan on any value *)

Lemma get_prop_message err w :
  truthy err = true ->
  get_prop err "message" w = (Ok (error_message (heap w) err), w).
Proof. destruct err; intros H; try discriminate H; reflexivity. Qed.

Lemma endSpan_truthy span err w :
  truthy err = true -> endSpan span err w = (Ok tt, span_failed span err w).
Proof.
  intros H. unfold endSpan. rewrite H. unfold bind at 1, bind at 1.
  unfold recordException at 1. unfold bind at 1.
  rewrite get_prop_message by exact H.
  unfold span_failed, setStatus, span_end, bind, log_event, update_span, with_spans.
  simpl. f_equal. f_equal.
  - rewrite !list_alter_alter_eq. apply list_alter_ext; [| reflexivity].
    intros s _. reflexivity.
  - rewrite <- !app_assoc. reflexivity.
Qed.

(** X1.  [endSpan(span, err)] never throws and leaves the heap and the
    diagnostic log alone; in the span store only the span [span] changes:
    it is ended once more, and an exception with status ERROR is recorded
    on it exactly when [err] is truthy (null, undefined, [false], [0] and
    the empty string end the span without error information).  When the
    store has no span [span] nothing changes in it. *)
Theorem endSpan_effect (span : nat) (err : Value) (w : World) :
  let w' := snd (endSpan span err w) in
  fst (endSpan span err w) = Ok tt /\
  heap w' = heap w /\ diag w' = diag w /\
  length (spans w') = length (spans w) /\
  (forall id,
      spans w' !! id =
        if decide (span = id)
        then (if truthy err then failed_span err (error_message (heap w) err)
              else closed_span) <$> spans w !! span
        else spans w !! id) /\
  events w' =
    events w ++
    (if truthy err
     then [EvRecordException span err;
           EvSetStatus span ERROR (error_message (heap w) err)]
     else []) ++ [EvEnd span].
Proof.
  intros w'. subst w'. destruct (truthy err) eqn:Ht.
  - rewrite endSpan_truthy by exact Ht. simpl.
    repeat split; try reflexivity.
    + apply length_alter.
    + intros id. apply list_lookup_alter.
  - rewrite endSpan_falsy by exact Ht. simpl.
    repeat split; try reflexivity.
    + apply length_alter.
    + intros id. apply list_lookup_alter.
Qed.

(** ** Edge cases of the dispatch wrapper and of the connect wrapper *)

Section Edges.

Variable extern : nat -> Value -> list Value -> gmap nat (gmap string Value) ->
                  HostResult * gmap nat (gmap string Value).
Variable defaultDbStatementSerializer : Value.

Lemma sendCommand_attributes_obj instrumentation serializer t c w :
  nullish (heap_get (heap w) t "options") = false ->
  exists attributes_of : Value -> gmap string Value,
    sendCommand_attributes extern instrumentation serializer (VObj t) (VObj c) w =
      match call extern serializer VUndefined
              [heap_get (heap w) c "name"; heap_get (heap w) c "args"] w with
      | (Ok dbStatement, wa) => (Ok (attributes_of dbStatement), wa)
      | (Throw e, wa) => (Throw e, wa)
      end.
Proof.
  intros Hopt.
  destruct (get_prop_ok (heap_get (heap w) t "options") "host" w Hopt) as [h Hh].
  destruct (get_prop_ok (heap_get (heap w) t "options") "port" w Hopt) as [p Hp].
  eexists (fun dbStatement => _).
  unfold sendCommand_attributes.
  unfold bind at 1. rewrite get_prop_obj.
  unfold bind at 1. rewrite get_prop_obj.
  unfold bind at 1. rewrite Hh. unfold bind at 1. rewrite Hp.
  unfold bind at 1. rewrite get_prop_obj.
  unfold bind at 1. rewrite get_prop_obj.
  unfold bind at 1.
  destruct (call extern serializer _ _ w) as [[dbStatement | e] wa]; reflexivity.
Qed.

(** X2.  A null first argument has [typeof] ["object"]: it is handed to the
    original only when the second guard fires ([requireParentSpan] true
    and no span active); otherwise the wrapper throws a TypeError on
    [cmd.name], opens no span and calls nothing. *)
Theorem null_command_dispatch
    (instrumentation : Instrumentation) (original moduleVersion this : Value)
    (rest : list Value) (w : World) :
  _traceSendCommand extern defaultDbStatementSerializer instrumentation
    original moduleVersion this (VNull :: rest) w =
    if is_true (config_get (getConfig instrumentation) "requireParentSpan")
       && match active_span w with None => true | Some _ => false end
    then call extern original this (VNull :: rest) w
    else (Throw (TypeError_read "name"), w).
Proof.
  destruct (is_true _ && _) eqn:Hg2.
  - apply traceSendCommand_untraced. exact Hg2.
  - rewrite (traceSendCommand_traced extern defaultDbStatementSerializer
               instrumentation original moduleVersion this (VNull :: rest) w
               eq_refl Hg2).
    reflexivity.
Qed.

(** X3.  A receiver whose [options] are null or undefined: when the second guard
    does not fire, both wrappers throw a TypeError from the destructuring
    of [this.options]; no span is opened, the original is not called and
    the world is as it was. *)
Theorem missing_options_throw
    (instrumentation : Instrumentation) (original moduleVersion : Value)
    (arguments rest : list Value) (t c : nat) (w : World) :
  is_true (config_get (getConfig instrumentation) "requireParentSpan")
    && match active_span w with None => true | Some _ => false end = false ->
  nullish (heap_get (heap w) t "options") = true ->
  _traceSendCommand extern defaultDbStatementSerializer instrumentation
    original moduleVersion (VObj t) (VObj c :: rest) w
    = (Throw (TypeError_read "host"), w) /\
  _traceConnection extern instrumentation original (VObj t) arguments w
    = (Throw (TypeError_read "host"), w).
Proof.
  intros Hg2 Hopt. split.
  - rewrite (traceSendCommand_traced extern defaultDbStatementSerializer
               instrumentation original moduleVersion (VObj t) (VObj c :: rest) w
               eq_refl Hg2).
    change (arg 0 (VObj c :: rest)) with (VObj c).
    unfold sendCommand_attributes.
    unfold bind at 1. rewrite get_prop_obj.
    unfold bind at 1. rewrite get_prop_obj.
    destruct (heap_get (heap w) t "options"); try discriminate Hopt; reflexivity.
  - rewrite traceConnection_traced by exact Hg2.
    unfold connection_attributes.
    unfold bind at 1. rewrite get_prop_obj.
    destruct (heap_get (heap w) t "options"); try discriminate Hopt; reflexivity.
Qed.

(** X4.  The statement serializer runs outside [safeExecuteInTheMiddle]: when
    it throws, the dispatch wrapper throws the same error, in the world
    the serializer left; no span has been opened and the original
    dispatch is not called. *)
Theorem serializer_throw_aborts
    (instrumentation : Instrumentation) (original moduleVersion : Value)
    (rest : list Value) (t c sf error : nat) (h : gmap nat (gmap string Value))
    (w : World) :
  is_true (config_get (getConfig instrumentation) "requireParentSpan")
    && match active_span w with None => true | Some _ => false end = false ->
  nullish (heap_get (heap w) t "options") = false ->
  js_or (config_get (getConfig instrumentation) "dbStatementSerializer")
    defaultDbStatementSerializer = VHost sf ->
  extern sf VUndefined [heap_get (heap w) c "name"; heap_get (heap w) c "args"]
    (heap w) = (Raises error, h) ->
  _traceSendCommand extern defaultDbStatementSerializer instrumentation
    original moduleVersion (VObj t) (VObj c :: rest) w =
    (Throw (VObj error),
     mkWorld (spans w) h (diag w)
       (events w ++
          [EvCall sf VUndefined
             [heap_get (heap w) c "name"; heap_get (heap w) c "args"]])
       (active_span w)).
Proof.
  intros Hg2 Hopt Hser Hraise.
  rewrite (traceSendCommand_traced extern defaultDbStatementSerializer
             instrumentation original moduleVersion (VObj t) (VObj c :: rest) w
             eq_refl Hg2).
  change (arg 0 (VObj c :: rest)) with (VObj c). rewrite Hser.
  destruct (sendCommand_attributes_obj instrumentation (VHost sf) t c w Hopt)
    as [attributes_of Heq].
  rewrite Heq, call_host_eq, Hraise. reflexivity.
Qed.

End Edges.

(** ** Between dispatch and settlement *)

Section Pending.

Variable extern : nat -> Value -> list Value -> gmap nat (gmap string Value) ->
                  HostResult * gmap nat (gmap string Value).
Variable defaultDbStatementSerializer : Value.

(** X5.  With a span active the second guard cannot fire, whatever
    [requireParentSpan] is: the connect wrapper opens exactly one span, and
    the dispatch wrapper opens exactly one span for a command object
    whenever the attributes can be computed (otherwise it throws what that
    computation threw). *)
Theorem active_span_traced
    (instrumentation : Instrumentation) (original moduleVersion : Value)
    (arguments rest : list Value) (t c parent : nat) (w : World) :
  active_span w = Some parent ->
  nullish (heap_get (heap w) t "options") = false ->
  let serializer :=
    js_or (config_get (getConfig instrumentation) "dbStatementSerializer")
      defaultDbStatementSerializer in
  length (spans (snd (_traceConnection extern instrumentation original (VObj t)
                        arguments w))) = S (length (spans w)) /\
  match fst (sendCommand_attributes extern instrumentation serializer (VObj t)
               (VObj c) w) with
  | Ok _ =>
      length (spans (snd (_traceSendCommand extern defaultDbStatementSerializer
                            instrumentation original moduleVersion (VObj t)
                            (VObj c :: rest) w))) = S (length (spans w))
  | Throw e =>
      fst (_traceSendCommand extern defaultDbStatementSerializer
             instrumentation original moduleVersion (VObj t) (VObj c :: rest) w)
        = Throw e
  end.
Proof.
  intros Hactive Hopt serializer.
  assert (Hg2 : is_true (config_get (getConfig instrumentation) "requireParentSpan")
                  && match active_span w with None => true | Some _ => false end
                = false).
  { rewrite Hactive. apply andb_false_r. }
  split.
  - rewrite traceConnection_traced by exact Hg2.
    destruct (connection_attributes_ok instrumentation t w Hopt) as [attributes Ha].
    rewrite Ha.
    rewrite (count_connection_dispatch extern original (VObj t) arguments
               (length (spans w)) (span_opened (VStr "connect") attributes w)).
    apply span_opened_length.
  - rewrite (traceSendCommand_traced extern defaultDbStatementSerializer
               instrumentation original moduleVersion (VObj t) (VObj c :: rest) w
               eq_refl Hg2).
    change (arg 0 (VObj c :: rest)) with (VObj c). fold serializer.
    pose proof (count_sendCommand_attributes extern instrumentation serializer
                  (VObj t) (VObj c) w) as Hcount.
    destruct (sendCommand_attributes extern instrumentation serializer (VObj t)
                (VObj c) w) as [[attributes | e] wa]; cbn [fst snd] in *;
      [| reflexivity].
    rewrite get_prop_obj.
    rewrite (count_sendCommand_dispatch extern _ original (VObj t) (VObj c :: rest)
               (VObj c) (length (spans wa)) _).
    rewrite (count_sendCommand_requestHook extern _ moduleVersion (VObj c)
               (length (spans wa)) _).
    rewrite span_opened_length. f_equal. exact Hcount.
Qed.

(** X6.  When the original dispatch returns, the wrapper returns its result and
    makes no call on the span: the span store, the trace and the
    diagnostic log are as the original left them, so the span stays open
    until the command settles.  In the heap it writes two fields and no
    other: [resolve] and [reject] of the command, each a closure over the
    span and over the callback it found there. *)
Theorem dispatch_return_leaves_span_open
    (config : gmap string Value) (original this v : Value)
    (arguments : list Value) (c span : nat) (w w1 : World) :
  call extern original this arguments w = (Ok v, w1) ->
  let run :=
    sendCommand_dispatch extern config original this arguments (VObj c) span w in
  fst run = Ok v /\
  spans (snd run) = spans w1 /\
  events (snd run) = events w1 /\
  diag (snd run) = diag w1 /\
  heap_get (heap (snd run)) c "resolve" =
    VResolve span (VObj c) (config_get config "responseHook")
      (heap_get (heap w1) c "resolve") /\
  heap_get (heap (snd run)) c "reject" =
    VReject span (heap_get (heap w1) c "reject") /\
  (forall r k,
      r <> c \/ (k <> "resolve" /\ k <> "reject") ->
      heap_get (heap (snd run)) r k = heap_get (heap w1) r k).
Proof.
  intros Hcall run. subst run.
  rewrite sendCommand_dispatch_spec, Hcall. cbn [fst snd]. simpl.
  repeat split.
  - rewrite heap_get_set_key by discriminate. apply heap_get_set_eq.
  - apply heap_get_set_eq.
  - intros r k [Hr | [Hk1 Hk2]].
    + unfold heap_get, heap_set. rewrite !lookup_insert_ne by congruence.
      reflexivity.
    + destruct (decide (c = r)) as [<- | Hne].
      * rewrite !heap_get_set_key by congruence. reflexivity.
      * unfold heap_get, heap_set. rewrite !lookup_insert_ne by congruence.
        reflexivity.
Qed.

(** X7.  Nothing stops a second settlement: a traced command that ioredis
    resolves and then rejects (the closures are still on the command) has
    [end()] called twice on its span, and the exception and status ERROR
    recorded after the first [end()]. *)
Theorem settled_twice_ends_twice
    (hook result : Value) (c span g g' error : nat) (sp : Span) (w : World) :
  let resolved := snd (settle extern (VObj c) (Resolves result) w) in
  let rejected := snd (settle extern (VObj c) (Rejects error) resolved) in
  spans w !! span = Some sp ->
  is_closure hook = false ->
  heap_get (heap w) c "resolve" = VResolve span (VObj c) hook (VHost g) ->
  heap_get (heap resolved) c "reject" = VReject span (VHost g') ->
  spans rejected !! span =
    Some (failed_span (VObj error) (error_message (heap resolved) (VObj error))
            (closed_span sp)) /\
  events rejected =
    events resolved ++
    [EvRecordException span (VObj error);
     EvSetStatus span ERROR (error_message (heap resolved) (VObj error));
     EvEnd span;
     EvCall g' VUndefined [VObj error]] /\
  In (EvEnd span) (events resolved).
Proof.
  intros resolved rejected Hsp Hhook Hres Hrej.
  destruct (settle_resolve_spec extern c span hook (VHost g) result w Hres Hhook
              eq_refl) as [Hs He].
  destruct (settle_reject_spec extern c span (VHost g') error resolved Hrej eq_refl)
    as [Hs' He'].
  fold resolved in Hs, He. fold rejected in Hs', He'.
  split; [| split].
  - rewrite Hs', Hs, !list_lookup_alter_eq, Hsp. reflexivity.
  - rewrite He'. reflexivity.
  - rewrite He. rewrite !in_app_iff. right. right. left. left. reflexivity.
Qed.

End Pending.

(** ** A command dispatched twice *)

Section Redispatch.

Variable extern : nat -> Value -> list Value -> gmap nat (gmap string Value) ->
                  HostResult * gmap nat (gmap string Value).

Lemma call_resolve_plain_hook span c hook orig this result w :
  is_closure hook = false ->
  call extern (VResolve span (VObj c) hook orig) this [result] w =
    (call extern orig VUndefined [result];;; ret VUndefined)
      (span_closed span
         (snd (responseHook_phase extern span (VObj c) hook result w))).
Proof.
  intros Hhook.
  destruct (responseHook_phase_spec extern span c hook result w Hhook)
    as ([v Hv] & _ & _).
  rewrite call_resolve_eq. change (arg 0 [result]) with result.
  unfold bind at 1.
  destruct (responseHook_phase extern span (VObj c) hook result w)
    as [[v' | e] wh]; simpl in Hv; [| discriminate].
  unfold bind at 1. rewrite endSpan_null. reflexivity.
Qed.

(** X8.  The same command object may reach the entry point again.
    When a command that already carries the closures of a first span is
    dispatched a second time, the new closures wrap the old ones: on
    resolution the response hook runs and the second span is ended, then
    the hook of the first dispatch runs and the first span is ended, and
    last the caller's callback is called, once; each span is ended once. *)
Theorem redispatch_closes_both_spans
    (config : gmap string Value) (original this v hook1 result : Value)
    (arguments : list Value) (c s1 s2 g : nat) (sp1 sp2 : Span) (w w1 : World) :
  let hook2 := config_get config "responseHook" in
  let w2 :=
    snd (sendCommand_dispatch extern config original this arguments (VObj c) s2 w) in
  let wh2 := snd (responseHook_phase extern s2 (VObj c) hook2 result w2) in
  let settled := snd (settle extern (VObj c) (Resolves result) w2) in
  call extern original this arguments w = (Ok v, w1) ->
  heap_get (heap w1) c "resolve" = VResolve s1 (VObj c) hook1 (VHost g) ->
  s1 <> s2 ->
  spans w1 !! s1 = Some sp1 ->
  spans w1 !! s2 = Some sp2 ->
  is_closure hook1 = false ->
  is_closure hook2 = false ->
  spans settled !! s1 = Some (closed_span sp1) /\
  spans settled !! s2 = Some (closed_span sp2) /\
  length (spans settled) = length (spans w1) /\
  events settled =
    events w1 ++
    (if nullish hook2 then []
     else call_events hook2 VUndefined
            [VSpan s2; heap_get (heap w2) c "name"; heap_get (heap w2) c "args";
             result]) ++
    [EvEnd s2] ++
    (if nullish hook1 then []
     else call_events hook1 VUndefined
            [VSpan s1; heap_get (heap wh2) c "name"; heap_get (heap wh2) c "args";
             result]) ++
    [EvEnd s1; EvCall g VUndefined [result]].
Proof.
  intros hook2 w2 wh2 settled Hcall Hres Hne Hsp1' Hsp2' Hh1 Hh2.
  assert (Hw2 : spans w2 = spans w1 /\ events w2 = events w1 /\
                heap_get (heap w2) c "resolve"
                = VResolve s2 (VObj c) hook2 (VResolve s1 (VObj c) hook1 (VHost g))).
  { subst w2. rewrite sendCommand_dispatch_spec, Hcall. cbn [snd]. simpl.
    rewrite heap_get_set_key by discriminate. rewrite heap_get_set_eq, Hres.
    auto. }
  destruct Hw2 as (Hs2 & He2 & Hres2).
  assert (Heq : settle extern (VObj c) (Resolves result) w2 =
                (call extern (VHost g) VUndefined [result];;; ret VUndefined;;;
                 ret VUndefined)
                  (span_closed s1
                     (snd (responseHook_phase extern s1 (VObj c) hook1 result
                             (span_closed s2 wh2))))).
  { unfold settle. unfold bind at 1. rewrite get_prop_obj, Hres2.
    rewrite call_resolve_plain_hook by exact Hh2. fold wh2.
    unfold bind at 1.
    rewrite call_resolve_plain_hook by exact Hh1.
    unfold bind. 
    destruct (call extern (VHost g) VUndefined [result] _) as [[r | e] wo];
      reflexivity. }
  subst settled. rewrite Heq. clear Heq.
  destruct (responseHook_phase_spec extern s2 c hook2 result w2 Hh2)
    as (_ & Hsp2 & Hev2).
  fold wh2 in Hsp2, Hev2.
  destruct (responseHook_phase_spec extern s1 c hook1 result (span_closed s2 wh2) Hh1)
    as (_ & Hsp1 & Hev1).
  set (wh1 := snd (responseHook_phase extern s1 (VObj c) hook1 result
                     (span_closed s2 wh2))) in *.
  unfold bind. rewrite call_host_eq.
  destruct (extern g VUndefined [result] (heap (span_closed s1 wh1)))
    as [[r | e] h]; simpl; rewrite Hsp1, Hev1; simpl; rewrite Hsp2, Hev2, Hs2, He2;
    rewrite <- !app_assoc; simpl; repeat split;
    rewrite ?length_alter, ?list_lookup_alter_eq,
      ?(list_lookup_alter_ne closed_span _ s2 s1) by congruence;
    rewrite ?list_lookup_alter_eq,
      ?(list_lookup_alter_ne closed_span _ s1 s2) by congruence;
    rewrite ?list_lookup_alter_eq, ?Hsp1', ?Hsp2'; reflexivity.
Qed.

End Redispatch.

(** ** The order of a traced dispatch *)

Section Order.

Variable extern : nat -> Value -> list Value -> gmap nat (gmap string Value) ->
                  HostResult * gmap nat (gmap string Value).
Variable defaultDbStatementSerializer : Value.

Lemma sendCommand_requestHook_plain config moduleVersion c span w :
  is_closure (config_get config "requestHook") = false ->
  let w' := snd (sendCommand_requestHook extern config moduleVersion (VObj c) span w) in
  spans w' = spans w /\
  events w' =
    events w ++
    (if truthy (config_get config "requestHook")
     then call_events (config_get config "requestHook") VUndefined
            [VSpan span;
             VRequestInfo moduleVersion (heap_get (heap w) c "name")
               (heap_get (heap w) c "args")]
     else []).
Proof.
  intros Hhook w'. subst w'. unfold sendCommand_requestHook.
  destruct (truthy (config_get config "requestHook")).
  2: { simpl. rewrite app_nil_r. auto. }
  destruct (call_plain extern (config_get config "requestHook") VUndefined
              [VSpan span;
               VRequestInfo moduleVersion (heap_get (heap w) c "name")
                 (heap_get (heap w) c "args")] w Hhook) as ((Hs & _) & He & _).
  cbv [bind safeExecuteInTheMiddle request_hook_failed]. simpl.
  destruct (call extern (config_get config "requestHook") _ _ w) as [[r | e] w1];
    simpl in *.
  - auto.
  - rewrite andb_false_r. destruct (truthy e); simpl; auto.
Qed.

(** X9.  A traced dispatch, in order: the serializer is called with the
    command's name and arguments, the span is started, the request hook
    (when one is configured) is called with the span and the request
    information, and only then the original dispatch is called with the
    receiver and the arguments of the wrapper; when it throws, the
    exception is recorded, the status set and the span ended, and nothing
    else crosses the boundary. *)
Theorem traced_dispatch_order
    (instrumentation : Instrumentation) (moduleVersion this : Value)
    (rest : list Value) (c f : nat) (attributes : gmap string Value)
    (w wa : World) :
  let config := getConfig instrumentation in
  let serializer :=
    js_or (config_get config "dbStatementSerializer") defaultDbStatementSerializer in
  let hook := config_get config "requestHook" in
  let id := length (spans w) in
  let run :=
    _traceSendCommand extern defaultDbStatementSerializer instrumentation (VHost f)
      moduleVersion this (VObj c :: rest) w in
  is_true (config_get config "requireParentSpan")
    && match active_span w with None => true | Some _ => false end = false ->
  sendCommand_attributes extern instrumentation serializer this (VObj c) w
    = (Ok attributes, wa) ->
  is_closure serializer = false ->
  is_closure hook = false ->
  events (snd run) =
    events w ++
    call_events serializer VUndefined
      [heap_get (heap w) c "name"; heap_get (heap w) c "args"] ++
    [EvStartSpan id] ++
    (if truthy hook
     then call_events hook VUndefined
            [VSpan id;
             VRequestInfo moduleVersion (heap_get (heap wa) c "name")
               (heap_get (heap wa) c "args")]
     else []) ++
    [EvCall f this (VObj c :: rest)] ++
    match fst run with
    | Throw e =>
        [EvRecordException id e;
         EvSetStatus id ERROR (error_message (heap (snd run)) e);
         EvEnd id]
    | Ok _ => []
    end.
Proof.
  intros config serializer hook id run Hg2 Hattr Hser Hhook. subst run.
  rewrite (traceSendCommand_traced extern defaultDbStatementSerializer
             instrumentation (VHost f) moduleVersion this (VObj c :: rest) w
             eq_refl Hg2).
  change (arg 0 (VObj c :: rest)) with (VObj c). fold config serializer.
  rewrite Hattr, get_prop_obj.
  destruct (sendCommand_attributes_spec extern instrumentation serializer this
              (VObj c) w attributes wa Hattr)
    as (name & cmdArgs & dbStatement & Hname & Hargs & Hcall & _).
  rewrite get_prop_obj in Hname, Hargs.
  injection Hname as <-. injection Hargs as <-.
  destruct (call_plain extern serializer VUndefined
              [heap_get (heap w) c "name"; heap_get (heap w) c "args"] w Hser)
    as ((Hsa & _) & Hea & _).
  rewrite Hcall in Hsa, Hea. cbn [snd] in Hsa, Hea.
  rewrite Hsa. fold id.
  destruct (sendCommand_requestHook_plain config moduleVersion c id
              (span_opened (heap_get (heap wa) c "name") attributes wa) Hhook)
    as [Hsh Heh].
  fold hook in Heh.
  set (wh := snd (sendCommand_requestHook extern config moduleVersion (VObj c) id
                    (span_opened (heap_get (heap wa) c "name") attributes wa)))
    in *.
  simpl in Heh. rewrite Hea in Heh.
  rewrite sendCommand_dispatch_spec, call_host_eq.
  destruct (extern f this (VObj c :: rest) (heap wh)) as [[v | err] h1];
    cbn [fst snd].
  - simpl. rewrite Heh, Hsa. fold id. rewrite <- !app_assoc. simpl.
    rewrite ?app_nil_r. reflexivity.
  - rewrite endSpan_error. simpl. rewrite Heh, Hsa. fold id.
    rewrite <- !app_assoc. simpl. reflexivity.
Qed.

End Order.

(** ** The spans the wrappers open *)

Section Opened.

Variable extern : nat -> Value -> list Value -> gmap nat (gmap string Value) ->
                  HostResult * gmap nat (gmap string Value).
Variable defaultDbStatementSerializer : Value.

Lemma keep_connection_dispatch original this arguments span :
  steps spans_keep_identity (connection_dispatch extern original this arguments span).
Proof.
  apply steps_connection_dispatch;
    first [ exact keep_refl | exact keep_trans | exact (keep_host extern)
          | exact keep_record | exact keep_status | exact keep_end
          | exact keep_diag ].
Qed.

Lemma getClientAttributes_no_operation host port s :
  getClientAttributes host port s !! ATTR_DB_OPERATION_NAME = None.
Proof.
  unfold getClientAttributes, Object_assign.
  destruct (has_flag s SemconvStability.OLD), (has_flag s SemconvStability.STABLE);
    unfold ATTR_DB_SYSTEM, ATTR_NET_PEER_NAME, ATTR_NET_PEER_PORT,
      ATTR_DB_CONNECTION_STRING, ATTR_DB_SYSTEM_NAME, ATTR_SERVER_ADDRESS,
      ATTR_SERVER_PORT, ATTR_DB_OPERATION_NAME;
    simplify_map_eq; reflexivity.
Qed.

Lemma sendCommand_attributes_client instrumentation serializer this cmd w
    attributes wa :
  sendCommand_attributes extern instrumentation serializer this cmd w
    = (Ok attributes, wa) ->
  exists operationName options host port,
    get_prop cmd "name" w = (Ok operationName, w) /\
    get_prop this "options" w = (Ok options, w) /\
    get_prop options "host" w = (Ok host, w) /\
    get_prop options "port" w = (Ok port, w) /\
    attributes !! ATTR_DB_OPERATION_NAME =
      (if has_flag (_semconvStability instrumentation) SemconvStability.STABLE
       then Some operationName else None) /\
    (forall k,
        k <> ATTR_DB_OPERATION_NAME -> k <> ATTR_DB_STATEMENT ->
        k <> ATTR_DB_QUERY_TEXT ->
        attributes !! k =
          getClientAttributes host port (_semconvStability instrumentation) !! k).
Proof.
  unfold sendCommand_attributes.
  unfold bind at 1. rewrite (get_prop_pair cmd "name" w).
  destruct (fst (get_prop cmd "name" w)) as [name | e] eqn:Hname;
    cbv beta iota; [| intros [=]].
  unfold bind at 1. rewrite (get_prop_pair this "options" w).
  destruct (fst (get_prop this "options" w)) as [options | e] eqn:Hopt;
    cbv beta iota; [| intros [=]].
  unfold bind at 1. rewrite (get_prop_pair options "host" w).
  destruct (fst (get_prop options "host" w)) as [host | e] eqn:Hhost;
    cbv beta iota; [| intros [=]].
  unfold bind at 1. rewrite (get_prop_pair options "port" w).
  destruct (fst (get_prop options "port" w)) as [port | e] eqn:Hport;
    cbv beta iota; [| intros [=]].
  unfold bind at 1. rewrite (get_prop_pair cmd "name" w), Hname. cbv beta iota.
  unfold bind at 1. rewrite (get_prop_pair cmd "args" w).
  destruct (fst (get_prop cmd "args" w)) as [cmdArgs | e];
    cbv beta iota; [| intros [=]].
  unfold bind at 1.
  destruct (call extern serializer VUndefined [name; cmdArgs] w)
    as [[dbStatement | e] w'] eqn:Hser; [| intros [=]].
  unfold ret. intros [= <- <-].
  exists name, options, host, port.
  split; [first [reflexivity | rewrite (get_prop_pair cmd "name" w), Hname; reflexivity] |].
  split; [first [reflexivity | rewrite (get_prop_pair this "options" w), Hopt; reflexivity] |].
  split; [first [reflexivity | rewrite (get_prop_pair options "host" w), Hhost; reflexivity] |].
  split; [first [reflexivity | rewrite (get_prop_pair options "port" w), Hport; reflexivity] |].
  pose proof (getClientAttributes_no_operation host port
                (_semconvStability instrumentation)) as Hop.
  split.
  - destruct (has_flag _ SemconvStability.OLD),
      (has_flag _ SemconvStability.STABLE), (nullish dbStatement); simpl;
      unfold ATTR_DB_OPERATION_NAME, ATTR_DB_STATEMENT, ATTR_DB_QUERY_TEXT in *;
      simplify_map_eq; first [reflexivity | assumption].
  - intros k Hk1 Hk2 Hk3.
    destruct (has_flag _ SemconvStability.OLD),
      (has_flag _ SemconvStability.STABLE), (nullish dbStatement); simpl;
      rewrite ?lookup_insert_ne by congruence; reflexivity.
Qed.

(** X10.  The span that the dispatch wrapper opens is of kind CLIENT and is named
    after the command as read when the span is started (after the
    serializer ran); [db.operation.name] is the command's name as read on
    entry, present exactly when the STABLE bit is set; every other
    attribute, the two statement keys apart, is the one
    [getClientAttributes] gives for the host and port of [this.options]. *)
Theorem dispatch_span_identity
    (instrumentation : Instrumentation) (original moduleVersion this : Value)
    (arguments : list Value) (w : World) (sp : Span) :
  spans (snd (_traceSendCommand extern defaultDbStatementSerializer instrumentation
                original moduleVersion this arguments w)) !! length (spans w)
    = Some sp ->
  let cmd := arg 0 arguments in
  let mode := _semconvStability instrumentation in
  exists operationName options host port attributes wa spanName,
    get_prop cmd "name" w = (Ok operationName, w) /\
    get_prop this "options" w = (Ok options, w) /\
    get_prop options "host" w = (Ok host, w) /\
    get_prop options "port" w = (Ok port, w) /\
    sendCommand_attributes extern instrumentation
      (js_or (config_get (getConfig instrumentation) "dbStatementSerializer")
         defaultDbStatementSerializer) this cmd w = (Ok attributes, wa) /\
    get_prop cmd "name" wa = (Ok spanName, wa) /\
    sp_name sp = spanName /\
    sp_kind sp = CLIENT /\
    sp_attributes sp !! ATTR_DB_OPERATION_NAME =
      (if Z.testbit mode 0 then Some operationName else None) /\
    (forall k,
        k <> ATTR_DB_OPERATION_NAME -> k <> ATTR_DB_STATEMENT ->
        k <> ATTR_DB_QUERY_TEXT ->
        sp_attributes sp !! k = getClientAttributes host port mode !! k).
Proof.
  intros Hsp cmd mode.
  destruct ((length arguments <? 1)%nat
            || negb (String.eqb (typeof cmd) "object")) eqn:Hg1.
  { exfalso. unfold _traceSendCommand in Hsp. fold cmd in Hsp. rewrite Hg1 in Hsp.
    rewrite no_new_span in Hsp by apply count_call. discriminate. }
  destruct (is_true (config_get (getConfig instrumentation) "requireParentSpan")
            && match active_span w with None => true | Some _ => false end)
    eqn:Hg2.
  { exfalso. rewrite traceSendCommand_untraced in Hsp.
    - rewrite no_new_span in Hsp by apply count_call. discriminate.
    - fold cmd. rewrite Hg1. exact Hg2. }
  rewrite (traceSendCommand_traced extern defaultDbStatementSerializer
             instrumentation original moduleVersion this arguments w Hg1 Hg2)
    in Hsp.
  fold cmd in Hsp.
  set (serializer := js_or (config_get (getConfig instrumentation)
                              "dbStatementSerializer")
                       defaultDbStatementSerializer) in *.
  pose proof (count_sendCommand_attributes extern instrumentation serializer
                this cmd w) as Hcount.
  destruct (sendCommand_attributes extern instrumentation serializer this cmd w)
    as [[attributes | e] wa] eqn:Hattr; cbn [fst snd] in *.
  2: { rewrite no_new_span in Hsp by exact Hcount. discriminate. }
  rewrite (get_prop_pair cmd "name" wa) in Hsp.
  destruct (fst (get_prop cmd "name" wa)) as [spanName | e] eqn:Hspan.
  2: { cbn [snd] in Hsp. rewrite no_new_span in Hsp by exact Hcount. discriminate. }
  destruct (sendCommand_attributes_client instrumentation serializer this cmd w
              attributes wa Hattr)
    as (operationName & options & host & port & Hname & Hopt & Hhost & Hport
        & Hop & Hrest).
  exists operationName, options, host, port, attributes, wa, spanName.
  split; [exact Hname |]. split; [exact Hopt |]. split; [exact Hhost |].
  split; [exact Hport |]. split; [reflexivity |].
  split; [rewrite (get_prop_pair cmd "name" wa), Hspan; reflexivity |].
  pose proof (span_opened_lookup spanName attributes wa) as Hopen.
  apply (keep_sendCommand_requestHook extern (getConfig instrumentation)
           moduleVersion cmd (length (spans wa))) in Hopen.
  destruct Hopen as (s1 & Hs1 & Hn1 & Hk1 & Ha1).
  apply (keep_sendCommand_dispatch extern (getConfig instrumentation) original
           this arguments cmd (length (spans wa))) in Hs1.
  destruct Hs1 as (s2 & Hs2 & Hn2 & Hk2 & Ha2).
  unfold same_span_count in Hcount. rewrite <- Hcount in Hsp.
  rewrite Hs2 in Hsp. injection Hsp as <-.
  simpl in Hn1, Hk1, Ha1. rewrite Hn2, Hn1, Hk2, Hk1, Ha2, Ha1.
  subst mode. rewrite <- has_flag_STABLE. auto.
Qed.

Lemma connection_attributes_spec instrumentation this w attributes :
  fst (connection_attributes instrumentation this w) = Ok attributes ->
  exists options host port,
    get_prop this "options" w = (Ok options, w) /\
    get_prop options "host" w = (Ok host, w) /\
    get_prop options "port" w = (Ok port, w) /\
    attributes !! ATTR_DB_STATEMENT =
      (if has_flag (_semconvStability instrumentation) SemconvStability.OLD
       then Some (VStr "connect") else None) /\
    attributes !! ATTR_DB_QUERY_TEXT =
      (if has_flag (_semconvStability instrumentation) SemconvStability.STABLE
       then Some (VStr "connect") else None) /\
    (forall k,
        k <> ATTR_DB_STATEMENT -> k <> ATTR_DB_QUERY_TEXT ->
        attributes !! k =
          getClientAttributes host port (_semconvStability instrumentation) !! k).
Proof.
  unfold connection_attributes.
  unfold bind at 1. rewrite (get_prop_pair this "options" w).
  destruct (fst (get_prop this "options" w)) as [options | e] eqn:Hopt;
    cbv beta iota; [| intros [=]].
  unfold bind at 1. rewrite (get_prop_pair options "host" w).
  destruct (fst (get_prop options "host" w)) as [host | e] eqn:Hhost;
    cbv beta iota; [| intros [=]].
  unfold bind at 1. rewrite (get_prop_pair options "port" w).
  destruct (fst (get_prop options "port" w)) as [port | e] eqn:Hport;
    cbv beta iota; [| intros [=]].
  unfold ret. cbn [fst]. intros [= <-].
  exists options, host, port.
  split; [first [reflexivity | rewrite (get_prop_pair this "options" w), Hopt; reflexivity] |].
  split; [first [reflexivity | rewrite (get_prop_pair options "host" w), Hhost; reflexivity] |].
  split; [first [reflexivity | rewrite (get_prop_pair options "port" w), Hport; reflexivity] |].
  destruct (getClientAttributes_no_statement host port
              (_semconvStability instrumentation)) as [Hst Hqt].
  split; [| split].
  - destruct (has_flag _ SemconvStability.OLD),
      (has_flag _ SemconvStability.STABLE);
      unfold ATTR_DB_STATEMENT, ATTR_DB_QUERY_TEXT in *;
      simplify_map_eq; first [reflexivity | assumption].
  - destruct (has_flag _ SemconvStability.OLD),
      (has_flag _ SemconvStability.STABLE);
      unfold ATTR_DB_STATEMENT, ATTR_DB_QUERY_TEXT in *;
      simplify_map_eq; first [reflexivity | assumption].
  - intros k Hk1 Hk2.
    destruct (has_flag _ SemconvStability.OLD),
      (has_flag _ SemconvStability.STABLE);
      rewrite ?lookup_insert_ne by congruence; reflexivity.
Qed.

(** X11.  The span that the connect wrapper opens is named ["connect"], of kind
    CLIENT; it carries the literal ["connect"] under [db.statement] exactly
    when the OLD bit is set and under [db.query.text] exactly when the
    STABLE bit is set; every other attribute is the one
    [getClientAttributes] gives for the host and port of [this.options]
    (so it never has [db.operation.name]). *)
Theorem connect_span_identity
    (instrumentation : Instrumentation) (original this : Value)
    (arguments : list Value) (w : World) (sp : Span) :
  spans (snd (_traceConnection extern instrumentation original this arguments w))
    !! length (spans w) = Some sp ->
  let mode := _semconvStability instrumentation in
  exists options host port,
    get_prop this "options" w = (Ok options, w) /\
    get_prop options "host" w = (Ok host, w) /\
    get_prop options "port" w = (Ok port, w) /\
    sp_name sp = VStr "connect" /\
    sp_kind sp = CLIENT /\
    sp_attributes sp !! ATTR_DB_STATEMENT =
      (if Z.testbit mode 1 then Some (VStr "connect") else None) /\
    sp_attributes sp !! ATTR_DB_QUERY_TEXT =
      (if Z.testbit mode 0 then Some (VStr "connect") else None) /\
    sp_attributes sp !! ATTR_DB_OPERATION_NAME = None /\
    (forall k,
        k <> ATTR_DB_STATEMENT -> k <> ATTR_DB_QUERY_TEXT ->
        sp_attributes sp !! k = getClientAttributes host port mode !! k).
Proof.
  intros Hsp mode.
  destruct (is_true (config_get (getConfig instrumentation) "requireParentSpan")
            && match active_span w with None => true | Some _ => false end)
    eqn:Hg2.
  { exfalso. rewrite traceConnection_untraced in Hsp by exact Hg2.
    rewrite no_new_span in Hsp by apply count_call. discriminate. }
  rewrite traceConnection_traced in Hsp by exact Hg2.
  destruct (fst (connection_attributes instrumentation this w))
    as [attributes | e] eqn:Hattr.
  2: { cbn [snd] in Hsp. rewrite no_new_span in Hsp by reflexivity. discriminate. }
  destruct (connection_attributes_spec instrumentation this w attributes Hattr)
    as (options & host & port & Hopt & Hhost & Hport & Hst & Hqt & Hrest).
  exists options, host, port.
  split; [exact Hopt |]. split; [exact Hhost |]. split; [exact Hport |].
  pose proof (span_opened_lookup (VStr "connect") attributes w) as Hopen.
  apply (keep_connection_dispatch original this arguments (length (spans w)))
    in Hopen.
  destruct Hopen as (s1 & Hs1 & Hn1 & Hk1 & Ha1).
  rewrite Hs1 in Hsp. injection Hsp as <-.
  simpl in Hn1, Hk1, Ha1. rewrite Hn1, Hk1, Ha1.
  subst mode. rewrite <- has_flag_OLD, <- has_flag_STABLE.
  split; [reflexivity |]. split; [reflexivity |].
  split; [exact Hst |]. split; [exact Hqt |]. split; [| exact Hrest].
  rewrite Hrest by discriminate. apply getClientAttributes_no_operation.
Qed.

End Opened.

(** ** The connect wrapper, start to end *)

Section Connect.

Variable extern : nat -> Value -> list Value -> gmap nat (gmap string Value) ->
                  HostResult * gmap nat (gmap string Value).

(** X12.  A traced connect whose receiver has options: the span is started before
    the original connect is called and ended after it, with the exception
    and the status in between when the original threw.  The spans that
    existed are left as they were, and so are the diagnostic log and the
    active span; the heap is the one the original left, and the outcome is
    the original's. *)
Theorem connect_traced_run
    (instrumentation : Instrumentation) (arguments : list Value) (f t : nat)
    (w : World) :
  is_true (config_get (getConfig instrumentation) "requireParentSpan")
    && match active_span w with None => true | Some _ => false end = false ->
  nullish (heap_get (heap w) t "options") = false ->
  let run := _traceConnection extern instrumentation (VHost f) (VObj t) arguments w in
  let id := length (spans w) in
  fst run =
    match fst (extern f (VObj t) arguments (heap w)) with
    | Returns client => Ok client
    | Raises error => Throw (VObj error)
    end /\
  events (snd run) =
    events w ++ [EvStartSpan id; EvCall f (VObj t) arguments] ++
    match fst run with
    | Throw e =>
        [EvRecordException id e;
         EvSetStatus id ERROR (error_message (heap (snd run)) e)]
    | Ok _ => []
    end ++ [EvEnd id] /\
  take id (spans (snd run)) = spans w /\
  length (spans (snd run)) = S id /\
  diag (snd run) = diag w /\
  active_span (snd run) = active_span w /\
  heap (snd run) = snd (extern f (VObj t) arguments (heap w)).
Proof.
  intros Hg2 Hopt run id. subst run id.
  rewrite traceConnection_traced by exact Hg2.
  destruct (connection_attributes_ok instrumentation t w Hopt) as [attributes Ha].
  rewrite Ha. rewrite connection_dispatch_spec, call_host_eq.
  destruct (extern f (VObj t) arguments (heap (span_opened (VStr "connect") attributes w)))
    as [[client | error] h] eqn:Hext;
    change (heap (span_opened (VStr "connect") attributes w)) with (heap w) in Hext;
    rewrite Hext; cbn [fst snd].
  - rewrite endSpan_null.
    unfold span_closed, update_span, span_opened, log_event, with_spans. simpl.
    rewrite alter_last, <- !app_assoc.
    repeat split; try reflexivity.
    + apply take_app_length.
    + rewrite length_app. simpl. lia.
  - rewrite endSpan_error.
    unfold span_failed, span_opened, log_event, with_spans. simpl.
    rewrite alter_last, <- !app_assoc.
    repeat split; try reflexivity.
    + apply take_app_length.
    + rewrite length_app. simpl. lia.
Qed.

End Connect.

(** ** Configuration *)

Section Settings.

Variable semconvStabilityFromStr : string -> Value -> Z.
Variable OTEL_SEMCONV_STABILITY_OPT_IN : Value.

(** X13.  What [getConfig] gives after [setConfig(config)]: a key that [config]
    supplies has the supplied value (an explicit [undefined] or
    [enabled: false] included); of the keys it does not supply,
    [requireParentSpan] and [enabled] are [true] and every other one is
    absent.  Storing the configuration read back changes nothing. *)
Theorem setConfig_settings
    (this_instrumentation : Instrumentation) (config : gmap string Value) :
  let instrumentation :=
    setConfig semconvStabilityFromStr OTEL_SEMCONV_STABILITY_OPT_IN
      this_instrumentation config in
  (forall k,
      getConfig instrumentation !! k =
        match config !! k with
        | Some v => Some v
        | None =>
            if bool_decide (k = "requireParentSpan" \/ k = "enabled")
            then Some (VBool true) else None
        end) /\
  setConfig semconvStabilityFromStr OTEL_SEMCONV_STABILITY_OPT_IN
    instrumentation (getConfig instrumentation) = instrumentation.
Proof.
  intros instrumentation. split.
  - intros k. unfold instrumentation, setConfig, getConfig,
      InstrumentationBase_setConfig, spread, DEFAULT_CONFIG. simpl.
    rewrite !lookup_union.
    destruct (config !! k) as [v |] eqn:Hk.
    + destruct (({["requireParentSpan" := VBool true]} : gmap string Value) !! k),
        (({["enabled" := VBool true]} : gmap string Value) !! k); reflexivity.
    + case_bool_decide as Hd.
      * destruct Hd as [-> | ->]; reflexivity.
      * rewrite !lookup_singleton_ne by (intros <-; apply Hd; auto).
        reflexivity.
  - unfold instrumentation, setConfig, getConfig. simpl. f_equal.
    unfold InstrumentationBase_setConfig, spread.
    apply map_eq. intros k. rewrite !lookup_union.
    destruct (config !! k) as [v |];
      destruct (DEFAULT_CONFIG !! k),
        (({["enabled" := VBool true]} : gmap string Value) !! k);
      reflexivity.
Qed.

End Settings.

(** ** Registration *)

Lemma shimmer_unwrap_wrap (f : Method) (w : Wrapper) :
  shimmer_isWrapped f = false ->
  shimmer_isWrapped (shimmer_wrap f w) = true ->
  shimmer_unwrap (shimmer_wrap f w) = f.
Proof.
  unfold shimmer_wrap. intros Hf Hw.
  destruct (is_function f); [reflexivity | congruence].
Qed.

Lemma shimmer_wrap_refused (f : Method) (w : Wrapper) :
  shimmer_isWrapped f = false ->
  shimmer_isWrapped (shimmer_wrap f w) = false ->
  shimmer_wrap f w = f /\ shimmer_unwrap f = f.
Proof.
  unfold shimmer_wrap. intros Hf Hw.
  destruct (is_function f) eqn:Hfun.
  - simpl in Hw. congruence.
  - split; [reflexivity |]. destruct f; [reflexivity | discriminate].
Qed.

Section Patching.

Variable Fn : Type.
Variable isWrapped : Fn -> bool.
Variable _wrap : Fn -> Wrapper -> Fn.
Variable _unwrap : Fn -> Fn.

(** What the proofs need of the library: on a function that is not
    wrapped, [_wrap] either installs a wrapper that [_unwrap] takes off
    again, or refuses and leaves the property as it was, and then [_unwrap]
    leaves it alone too. *)
Hypothesis unwrap_wrap : forall f w,
  isWrapped f = false -> isWrapped (_wrap f w) = true -> _unwrap (_wrap f w) = f.
Hypothesis wrap_refused : forall f w,
  isWrapped f = false -> isWrapped (_wrap f w) = false ->
  _wrap f w = f /\ _unwrap f = f.

Lemma rewrap_rewrap (f : Fn) (w1 w2 : Wrapper) :
  let base := if isWrapped f then _unwrap f else f in
  isWrapped base = false ->
  let g := _wrap base w1 in
  _wrap (if isWrapped g then _unwrap g else g) w2 = _wrap base w2.
Proof.
  intros base Hbase g. subst g.
  destruct (isWrapped (_wrap base w1)) eqn:Hw.
  - rewrite unwrap_wrap by assumption. reflexivity.
  - destruct (wrap_refused base w1 Hbase Hw) as [-> _]. reflexivity.
Qed.

Lemma unwrap_rewrap (f : Fn) (w : Wrapper) :
  let base := if isWrapped f then _unwrap f else f in
  isWrapped base = false ->
  _unwrap (_wrap base w) = base.
Proof.
  intros base Hbase.
  destruct (isWrapped (_wrap base w)) eqn:Hw.
  - apply unwrap_wrap; assumption.
  - destruct (wrap_refused base w Hbase Hw) as [-> ->]. reflexivity.
Qed.

Lemma init_patch_eq (module : NodeModule Fn) (moduleVersion : Value) :
  let prototype := moduleExports_prototype module in
  let base name :=
    if isWrapped (get_method prototype name) then _unwrap (get_method prototype name)
    else get_method prototype name in
  init_patch isWrapped _wrap _unwrap module moduleVersion
  = with_prototype module
      (mkPrototype (_wrap (base SendCommand) (_patchSendCommand moduleVersion))
         (_wrap (base Connect) _patchConnection)).
Proof.
  destruct module as [[s c] | [s c]]; cbn;
    unfold init_patch, wrap_method, unwrap_method; cbn;
    destruct (isWrapped s); cbn; destruct (isWrapped c); reflexivity.
Qed.

Lemma moduleExports_with_prototype (module : NodeModule Fn) (p : Prototype Fn) :
  moduleExports_prototype (with_prototype module p) = p.
Proof. destruct module; reflexivity. Qed.

Lemma with_prototype_twice (module : NodeModule Fn) (p q : Prototype Fn) :
  with_prototype (with_prototype module p) q = with_prototype module q.
Proof. destruct module; reflexivity. Qed.

(** X14.  Patching a module that was patched before (with whatever module
    version) gives the module that patching it once gives: the wrappers
    are replaced, never stacked.  The methods may be wrapped at the start,
    as long as one [_unwrap] takes their wrappers off. *)
Theorem patch_again_replaces
    (module : NodeModule Fn) (moduleVersion moduleVersion' : Value) :
  let prototype := moduleExports_prototype module in
  let base name :=
    if isWrapped (get_method prototype name) then _unwrap (get_method prototype name)
    else get_method prototype name in
  isWrapped (base SendCommand) = false ->
  isWrapped (base Connect) = false ->
  init_patch isWrapped _wrap _unwrap
    (init_patch isWrapped _wrap _unwrap module moduleVersion) moduleVersion'
  = init_patch isWrapped _wrap _unwrap module moduleVersion'.
Proof.
  intros prototype base Hs Hc.
  pose proof (rewrap_rewrap (get_method prototype SendCommand)
                (_patchSendCommand moduleVersion)
                (_patchSendCommand moduleVersion') Hs) as Es.
  pose proof (rewrap_rewrap (get_method prototype Connect) _patchConnection
                _patchConnection Hc) as Ec.
  rewrite (init_patch_eq module moduleVersion), (init_patch_eq module moduleVersion').
  rewrite init_patch_eq. rewrite moduleExports_with_prototype, with_prototype_twice.
  subst base prototype. cbv zeta in Es, Ec.
  cbn [get_method sendCommand connect] in *.
  rewrite Es, Ec. reflexivity.
Qed.

(** X15.  Unpatching a patched module leaves, in each of the two methods, what
    the method held before the patch with one wrapper taken off if it was
    wrapped; a module whose methods were not wrapped is restored exactly.
    The module keeps its shape (ES module or CommonJS). *)
Theorem unpatch_after_patch (module : NodeModule Fn) (moduleVersion : Value) :
  let prototype := moduleExports_prototype module in
  let base name :=
    if isWrapped (get_method prototype name) then _unwrap (get_method prototype name)
    else get_method prototype name in
  isWrapped (base SendCommand) = false ->
  isWrapped (base Connect) = false ->
  init_unpatch _unwrap
    (Some (init_patch isWrapped _wrap _unwrap module moduleVersion))
  = Some (with_prototype module
            (mkPrototype (base SendCommand) (base Connect))).
Proof.
  intros prototype base Hs Hc.
  pose proof (unwrap_rewrap (get_method prototype SendCommand)
                (_patchSendCommand moduleVersion) Hs) as Es.
  pose proof (unwrap_rewrap (get_method prototype Connect) _patchConnection Hc)
    as Ec.
  rewrite (init_patch_eq module moduleVersion).
  unfold init_unpatch, unwrap_method.
  rewrite moduleExports_with_prototype, with_prototype_twice.
  subst base prototype. cbv zeta in Es, Ec.
  cbn [get_method set_method sendCommand connect] in *.
  rewrite Es, Ec. reflexivity.
Qed.

End Patching.

(** ** The properties above in the scenario *)

(** A receiver without [options] (object 2), with a span active. *)
Lemma missing_options_throw_witness :
  is_true (config_get (getConfig (demo_instrumentation ∅)) "requireParentSpan")
    && match active_span demo_world with None => true | Some _ => false end
    = false /\
  nullish (heap_get (heap demo_world) 2 "options") = true /\
  _traceSendCommand demo_extern (VHost 3) (demo_instrumentation ∅) (VHost 0)
    (VStr "5.4.1") (VObj 2) [VObj 0] demo_world
    = (Throw (TypeError_read "host"), demo_world) /\
  _traceConnection demo_extern (demo_instrumentation ∅) (VHost 0) (VObj 2) []
    demo_world
    = (Throw (TypeError_read "host"), demo_world).
Proof.
  split; [reflexivity |]. split; [reflexivity |].
  apply (missing_options_throw demo_extern (VHost 3) (demo_instrumentation ∅)
           (VHost 0) (VStr "5.4.1") [] [] 2 0 demo_world); reflexivity.
Defined.

(** The serializer 4 throws the Error 9: no span is started and the
    original is not called. *)
Lemma serializer_throw_aborts_witness :
  _traceSendCommand demo_extern (VHost 4) (demo_instrumentation ∅) (VHost 0)
    (VStr "5.4.1") (VObj 1) [VObj 0] demo_world
  = (Throw (VObj 9),
     mkWorld (spans demo_world) demo_heap (diag demo_world)
       (events demo_world ++
          [EvCall 4 VUndefined
             [heap_get (heap demo_world) 0 "name";
              heap_get (heap demo_world) 0 "args"]])
       (active_span demo_world)).
Proof.
  apply (serializer_throw_aborts demo_extern (VHost 4) (demo_instrumentation ∅)
           (VHost 0) (VStr "5.4.1") [] 1 0 4 9 demo_heap demo_world);
    reflexivity.
Defined.

(** With [requireParentSpan: false] and the parent span active, both
    wrappers open a span. *)
Lemma active_span_traced_witness :
  let instrumentation :=
    demo_instrumentation (<["requireParentSpan" := VBool false]> ∅) in
  length (spans (snd (_traceConnection demo_extern instrumentation (VHost 0)
                        (VObj 1) [] demo_world))) = 2%nat /\
  length (spans (snd (_traceSendCommand demo_extern (VHost 3) instrumentation
                        (VHost 0) (VStr "5.4.1") (VObj 1) [VObj 0] demo_world)))
    = 2%nat.
Proof.
  intros instrumentation.
  pose proof (active_span_traced demo_extern (VHost 3) instrumentation (VHost 0)
                (VStr "5.4.1") [] [] 1 0 0 demo_world eq_refl eq_refl) as [Hc Hs].
  split; [exact Hc |].
  destruct (fst (sendCommand_attributes demo_extern instrumentation
                   (js_or (config_get (getConfig instrumentation)
                             "dbStatementSerializer") (VHost 3))
                   (VObj 1) (VObj 0) demo_world)) eqn:Ha in Hs.
  - exact Hs.
  - vm_compute in Ha. discriminate Ha.
Defined.

(** The dispatch of [get foo] returns the promise: span 1 is still open
    in the world it leaves. *)
Lemma dispatch_return_leaves_span_open_witness :
  let w := span_opened (VStr "get") ∅ demo_world in
  let run :=
    sendCommand_dispatch demo_extern ∅ (VHost 0) (VObj 1) [VObj 0] (VObj 0) 1 w in
  call demo_extern (VHost 0) (VObj 1) [VObj 0] w
    = (Ok (VStr "promise"), snd (call demo_extern (VHost 0) (VObj 1) [VObj 0] w)) /\
  fst run = Ok (VStr "promise") /\
  spans (snd run) = spans w /\
  heap_get (heap (snd run)) 0 "resolve" = VResolve 1 (VObj 0) VUndefined (VHost 1) /\
  heap_get (heap (snd run)) 0 "reject" = VReject 1 (VHost 2).
Proof.
  intros w run.
  assert (Hcall : call demo_extern (VHost 0) (VObj 1) [VObj 0] w
                  = (Ok (VStr "promise"),
                     snd (call demo_extern (VHost 0) (VObj 1) [VObj 0] w))).
  { reflexivity. }
  split; [exact Hcall |].
  destruct (dispatch_return_leaves_span_open demo_extern ∅ (VHost 0) (VObj 1)
              (VStr "promise") [VObj 0] 0 1 w _ Hcall)
    as (Hv & Hs & _ & _ & Hres & Hrej & _).
  split; [exact Hv |]. split; [exact Hs |].
  split; [exact Hres | exact Hrej].
Defined.

(** ioredis resolves the dispatched command and then rejects it: span 1
    is ended twice and ends up with the status ERROR. *)
Lemma settled_twice_ends_twice_witness :
  let resolved := snd (settle demo_extern (VObj 0) (Resolves (VStr "bar"))
                         demo_dispatched) in
  let rejected := snd (settle demo_extern (VObj 0) (Rejects 9) resolved) in
  spans demo_dispatched !! 1%nat = Some demo_span_get /\
  spans rejected !! 1%nat =
    Some (failed_span (VObj 9) (VStr "boom") (closed_span demo_span_get)) /\
  sp_ended (failed_span (VObj 9) (VStr "boom") (closed_span demo_span_get)) = 2%nat.
Proof.
  intros resolved rejected.
  assert (Hsp : spans demo_dispatched !! 1%nat = Some demo_span_get).
  { vm_compute. reflexivity. }
  split; [exact Hsp |].
  destruct (settled_twice_ends_twice demo_extern VUndefined (VStr "bar") 0 1 1 2 9
              demo_span_get demo_dispatched Hsp eq_refl eq_refl eq_refl)
    as (Hspan & _ & _).
  split; [exact Hspan | reflexivity].
Defined.

(** The command [get foo], already dispatched under span 1, goes through
    the wrapper again under span 2 and is then resolved once: both spans
    are closed, span 2 first. *)
Lemma redispatch_closes_both_spans_witness :
  let w2 :=
    snd (sendCommand_dispatch demo_extern ∅ (VHost 0) (VObj 1) [VObj 0] (VObj 0) 2
           demo_redispatched) in
  let settled := snd (settle demo_extern (VObj 0) (Resolves (VStr "bar")) w2) in
  heap_get (heap demo_redispatched) 0 "resolve"
    = VResolve 1 (VObj 0) VUndefined (VHost 1) /\
  spans settled !! 1%nat = Some (closed_span demo_span_get) /\
  spans settled !! 2%nat =
    Some (closed_span (mkSpan (VStr "get") CLIENT ∅ [] (UNSET, VUndefined) 0)) /\
  events settled =
    events demo_redispatched ++
    [EvCall 0 (VObj 1) [VObj 0]; EvEnd 2; EvEnd 1; EvCall 1 VUndefined [VStr "bar"]].
Proof.
  intros w2 settled.
  assert (Hcall : call demo_extern (VHost 0) (VObj 1) [VObj 0] demo_redispatched
                  = (Ok (VStr "promise"),
                     snd (call demo_extern (VHost 0) (VObj 1) [VObj 0]
                            demo_redispatched))).
  { reflexivity. }
  assert (Hres : heap_get (heap demo_redispatched) 0 "resolve"
                 = VResolve 1 (VObj 0) VUndefined (VHost 1)).
  { vm_compute. reflexivity. }
  split; [exact Hres |].
  destruct (redispatch_closes_both_spans demo_extern ∅ (VHost 0) (VObj 1)
              (VStr "promise") VUndefined (VStr "bar") [VObj 0] 0 1 2 1
              demo_span_get (mkSpan (VStr "get") CLIENT ∅ [] (UNSET, VUndefined) 0)
              demo_redispatched _ Hcall)
    as (H1 & H2 & _ & He).
  - vm_compute. reflexivity.
  - discriminate.
  - vm_compute. reflexivity.
  - vm_compute. reflexivity.
  - reflexivity.
  - reflexivity.
  - split; [exact H1 |]. split; [exact H2 |]. exact He.
Defined.

(** The traced dispatch of [get foo] with a request hook (function 10):
    serializer, start of span 1, request hook, original. *)
Lemma traced_dispatch_order_witness :
  let instrumentation :=
    demo_instrumentation (<["requestHook" := VHost 10]> ∅) in
  events (snd (_traceSendCommand demo_extern (VHost 3) instrumentation (VHost 0)
                 (VStr "5.4.1") (VObj 1) [VObj 0] demo_world)) =
    [EvCall 3 VUndefined [VStr "get"; VObj 2];
     EvStartSpan 1;
     EvCall 10 VUndefined [VSpan 1; VRequestInfo (VStr "5.4.1") (VStr "get") (VObj 2)];
     EvCall 0 (VObj 1) [VObj 0]].
Proof.
  intros instrumentation.
  assert (Ha : sendCommand_attributes demo_extern instrumentation
                 (js_or (config_get (getConfig instrumentation)
                           "dbStatementSerializer") (VHost 3))
                 (VObj 1) (VObj 0) demo_world
               = (Ok (sp_attributes demo_span_get),
                  snd (sendCommand_attributes demo_extern instrumentation
                         (js_or (config_get (getConfig instrumentation)
                                   "dbStatementSerializer") (VHost 3))
                         (VObj 1) (VObj 0) demo_world))).
  { vm_compute. reflexivity. }
  exact (traced_dispatch_order demo_extern (VHost 3) instrumentation (VStr "5.4.1")
           (VObj 1) [] 0 0 (sp_attributes demo_span_get) demo_world _
           eq_refl Ha eq_refl eq_refl).
Defined.

(** The span of [get foo] in dual mode. *)
Lemma dispatch_span_identity_witness :
  spans demo_dispatched !! 1%nat = Some demo_span_get /\
  sp_name demo_span_get = VStr "get" /\
  sp_kind demo_span_get = CLIENT /\
  sp_attributes demo_span_get !! ATTR_DB_OPERATION_NAME = Some (VStr "get").
Proof.
  assert (Hsp : spans demo_dispatched !! 1%nat = Some demo_span_get).
  { vm_compute. reflexivity. }
  split; [exact Hsp |].
  destruct (dispatch_span_identity demo_extern (VHost 3) (demo_instrumentation ∅)
              (VHost 0) (VStr "5.4.1") (VObj 1) [VObj 0] demo_world demo_span_get
              Hsp)
    as (operationName & options & host & port & attributes & wa & spanName
        & Hname & _ & _ & _ & _ & Hspan & Hn & Hk & Hop & _).
  vm_compute in Hname. injection Hname as <-.
  split; [reflexivity |]. split; [exact Hk |]. exact Hop.
Defined.

(** The span of a connect in dual mode. *)
Lemma connect_span_identity_witness :
  spans (snd (_traceConnection demo_extern (demo_instrumentation ∅) (VHost 0)
                (VObj 1) [] demo_world)) !! 1%nat
    = Some (closed_span demo_span_connect) /\
  sp_name (closed_span demo_span_connect) = VStr "connect" /\
  sp_attributes (closed_span demo_span_connect) !! ATTR_DB_OPERATION_NAME = None.
Proof.
  assert (Hsp : spans (snd (_traceConnection demo_extern (demo_instrumentation ∅)
                              (VHost 0) (VObj 1) [] demo_world)) !! 1%nat
                = Some (closed_span demo_span_connect)).
  { vm_compute. reflexivity. }
  split; [exact Hsp |].
  destruct (connect_span_identity demo_extern (demo_instrumentation ∅) (VHost 0)
              (VObj 1) [] demo_world (closed_span demo_span_connect) Hsp)
    as (options & host & port & _ & _ & _ & Hn & _ & _ & _ & Hop & _).
  split; [exact Hn | exact Hop].
Defined.

(** A CommonJS module patched for 4.0.0 and then for 5.4.1, and an ES
    module whose [sendCommand] is wrapped already and whose [connect] is
    missing. *)
Lemma patch_again_replaces_witness :
  init_patch shimmer_isWrapped shimmer_wrap shimmer_unwrap
    (init_patch shimmer_isWrapped shimmer_wrap shimmer_unwrap demo_module
       (VStr "4.0.0")) (VStr "5.4.1")
  = CommonJS
      (mkPrototype (Wrapped (PatchSendCommand (VStr "5.4.1")) (Plain (VHost 0)))
         (Wrapped PatchConnection (Plain (VHost 1)))) /\
  init_patch shimmer_isWrapped shimmer_wrap shimmer_unwrap
    (init_patch shimmer_isWrapped shimmer_wrap shimmer_unwrap demo_module_wrapped
       (VStr "4.0.0")) (VStr "5.4.1")
  = ESM
      (mkPrototype (Wrapped (PatchSendCommand (VStr "5.4.1")) (Plain (VHost 0)))
         (Plain VUndefined)).
Proof.
  split.
  - rewrite (patch_again_replaces Method shimmer_isWrapped shimmer_wrap
               shimmer_unwrap shimmer_unwrap_wrap shimmer_wrap_refused
               demo_module (VStr "4.0.0") (VStr "5.4.1") eq_refl eq_refl).
    reflexivity.
  - rewrite (patch_again_replaces Method shimmer_isWrapped shimmer_wrap
               shimmer_unwrap shimmer_unwrap_wrap shimmer_wrap_refused
               demo_module_wrapped (VStr "4.0.0") (VStr "5.4.1") eq_refl eq_refl).
    reflexivity.
Defined.

(** Unpatching gives the CommonJS module back, and takes the wrapper that
    was there before the patch off the ES module. *)
Lemma unpatch_after_patch_witness :
  init_unpatch shimmer_unwrap
    (Some (init_patch shimmer_isWrapped shimmer_wrap shimmer_unwrap demo_module
             (VStr "5.4.1")))
  = Some demo_module /\
  init_unpatch shimmer_unwrap
    (Some (init_patch shimmer_isWrapped shimmer_wrap shimmer_unwrap
             demo_module_wrapped (VStr "5.4.1")))
  = Some (ESM (mkPrototype (Plain (VHost 0)) (Plain VUndefined))).
Proof.
  split.
  - exact (unpatch_after_patch Method shimmer_isWrapped shimmer_wrap shimmer_unwrap
             shimmer_unwrap_wrap shimmer_wrap_refused demo_module (VStr "5.4.1")
             eq_refl eq_refl).
  - exact (unpatch_after_patch Method shimmer_isWrapped shimmer_wrap shimmer_unwrap
             shimmer_unwrap_wrap shimmer_wrap_refused demo_module_wrapped
             (VStr "5.4.1") eq_refl eq_refl).
Defined.

(** The connect 4 throws the Error 9 with the parent span active. *)
Lemma connect_traced_run_witness :
  let run :=
    _traceConnection demo_extern (demo_instrumentation ∅) (VHost 4) (VObj 1) []
      demo_world in
  fst run = Throw (VObj 9) /\
  events (snd run) =
    [EvStartSpan 1; EvCall 4 (VObj 1) [];
     EvRecordException 1 (VObj 9); EvSetStatus 1 ERROR (VStr "boom"); EvEnd 1] /\
  take 1 (spans (snd run)) = [demo_parent] /\
  active_span (snd run) = Some 0%nat.
Proof.
  intros run.
  assert (Hg2 : is_true (config_get (getConfig (demo_instrumentation ∅))
                            "requireParentSpan")
                  && match active_span demo_world with
                     | None => true
                     | Some _ => false
                     end = false) by reflexivity.
  assert (Hopt : nullish (heap_get (heap demo_world) 1 "options") = false)
    by reflexivity.
  destruct (connect_traced_run demo_extern (demo_instrumentation ∅) [] 4 1
              demo_world Hg2 Hopt)
    as (Hout & Hev & Htake & _ & _ & Hactive & _).
  split; [exact Hout |]. split; [| split; [exact Htake | exact Hactive]].
  fold run in Hev. rewrite Hev.
  replace (fst run) with (@Throw Value (VObj 9)) by (symmetry; exact Hout).
  reflexivity.
Defined.
